(** * The TCP/IP network device (src/os/dev-net.c)

    A shallow embedding of the command handlers of the network device:
    every handler is a program over a machine made of the request store,
    the log of the operating-system calls issued so far, the queue of
    signalled events and the last OS error code.  The operating system is
    an arbitrary function from the history of calls to a reply, so every
    theorem holds for every behaviour of the environment. *)

From Stdlib Require Import ZArith Lia List Bool.
From stdpp Require Import base gmap list.

Local Open Scope Z_scope.

(** ** Platform constants

    The headers sys-net.h, reb-net.h, reb-device.h and reb-evtypes.h are
    not part of the sources at hand.  Their numeric constants are kept
    abstract: a [Platform] fixes them, the only law being that the state
    flags are distinct bits of the state bitset. *)

Definition pairwise_disjoint (fs : list Z) : Prop :=
  ForallOrdPairs (fun a b => Z.land a b = 0) fs.

Class Platform := {
  (* socket types, tested against [modes] *)
  RST_UDP : Z;
  RST_LISTEN : Z;
  (* socket state flags, kept in [state] *)
  RSM_OPEN : Z;
  RSM_ATTEMPT : Z;
  RSM_CONNECT : Z;
  RSM_BIND : Z;
  RSM_LISTEN : Z;
  RSM_SEND : Z;
  RSM_RECEIVE : Z;
  (* request flags, kept in [flags] *)
  RRF_OPEN : Z;
  RRF_DONE : Z;
  RRF_ACTIVE : Z;
  (* transfer cap and OS codes *)
  MAX_TRANSFER : Z;
  BAD_SOCKET : Z;
  NE_ISCONN : Z;
  NE_WOULDBLOCK : Z;
  NE_INPROGRESS : Z;
  NE_ALREADY : Z;
  NE_INVALID : Z;
  O_NONBLOCK : Z;
  SOMAXCONN : Z;
  INADDR_ANY : Z;
  MSG_NOSIGNAL : Z;
  (* conditional compilation *)
  TO_WINDOWS : bool;
  HAVE_SO_NOSIGPIPE : bool;
  HAVE_FIONBIO : bool;
  (* laws *)
  RSM_positive :
    Forall (fun f => 0 < f)
      [RSM_OPEN; RSM_ATTEMPT; RSM_CONNECT; RSM_BIND; RSM_LISTEN;
       RSM_SEND; RSM_RECEIVE];
  RSM_disjoint :
    pairwise_disjoint
      [RSM_OPEN; RSM_ATTEMPT; RSM_CONNECT; RSM_BIND; RSM_LISTEN;
       RSM_SEND; RSM_RECEIVE];
  MAX_TRANSFER_pos : 0 < MAX_TRANSFER
}.

(** The tri-state result of a device command. *)
Inductive DEVICE_CMD := DR_DONE | DR_PEND | DR_ERROR.

(** Device commands, in the order of the dispatch table [Dev_Cmds]. *)
Inductive RDC :=
| RDC_INIT | RDC_QUIT | RDC_OPEN | RDC_CLOSE | RDC_READ | RDC_WRITE
| RDC_POLL | RDC_CONNECT | RDC_QUERY | RDC_MODIFY | RDC_CREATE
| RDC_DELETE | RDC_RENAME | RDC_LOOKUP.

(** Event kinds handed to [Signal_Device]. *)
Inductive EVT :=
| EVT_LOOKUP | EVT_CONNECT | EVT_WROTE | EVT_READ | EVT_CLOSE | EVT_ACCEPT.

#[global] Instance DEVICE_CMD_eq_dec : EqDecision DEVICE_CMD.
Proof. solve_decision. Defined.
#[global] Instance RDC_eq_dec : EqDecision RDC.
Proof. solve_decision. Defined.
#[global] Instance EVT_eq_dec : EqDecision EVT.
Proof. solve_decision. Defined.

(** ** Requests

    Modelled from the spec: the request structures (struct rebol_devreq in
    reb-device.h and struct devreq_net in reb-net.h) are missing from the
    sources.  The fields are the Request attributes of the data model:
    handle, mode flags, state flags, error slot, buffer cursor, total
    length, actual transferred, local and remote endpoint, the
    pending-accept queue (an ownership list of child requests, here the
    list of their addresses) and the DNS scratch pointer.  [command],
    [flags] and [device] are the remaining fields dev-net.c touches. *)
Module devreq.
Record t := mk {
  device : Z;
  socket : Z;            (* requestee.socket *)
  command : RDC;
  error : Z;
  modes : Z;
  flags : Z;
  state : Z;
  data : Z;              (* common.data, the buffer cursor *)
  sock : list Z;         (* common.sock, the pending-accept queue *)
  length : Z;
  actual : Z;
  local_ip : Z;
  local_port : Z;
  remote_ip : Z;
  remote_port : Z;
  host_info : Z
}.

(** What OS_ALLOC_ZEROFILL hands out. *)
Definition zero : t :=
  mk 0 0 RDC_INIT 0 0 0 0 0 [] 0 0 0 0 0 0 0.

Definition set_device v r :=
  mk v (socket r) (command r) (error r) (modes r) (flags r) (state r)
     (data r) (sock r) (length r) (actual r) (local_ip r) (local_port r)
     (remote_ip r) (remote_port r) (host_info r).
Definition set_socket v r :=
  mk (device r) v (command r) (error r) (modes r) (flags r) (state r)
     (data r) (sock r) (length r) (actual r) (local_ip r) (local_port r)
     (remote_ip r) (remote_port r) (host_info r).
Definition set_command v r :=
  mk (device r) (socket r) v (error r) (modes r) (flags r) (state r)
     (data r) (sock r) (length r) (actual r) (local_ip r) (local_port r)
     (remote_ip r) (remote_port r) (host_info r).
Definition set_error v r :=
  mk (device r) (socket r) (command r) v (modes r) (flags r) (state r)
     (data r) (sock r) (length r) (actual r) (local_ip r) (local_port r)
     (remote_ip r) (remote_port r) (host_info r).
Definition set_flags v r :=
  mk (device r) (socket r) (command r) (error r) (modes r) v (state r)
     (data r) (sock r) (length r) (actual r) (local_ip r) (local_port r)
     (remote_ip r) (remote_port r) (host_info r).
Definition set_state v r :=
  mk (device r) (socket r) (command r) (error r) (modes r) (flags r) v
     (data r) (sock r) (length r) (actual r) (local_ip r) (local_port r)
     (remote_ip r) (remote_port r) (host_info r).
Definition set_data v r :=
  mk (device r) (socket r) (command r) (error r) (modes r) (flags r)
     (state r) v (sock r) (length r) (actual r) (local_ip r)
     (local_port r) (remote_ip r) (remote_port r) (host_info r).
Definition set_sock v r :=
  mk (device r) (socket r) (command r) (error r) (modes r) (flags r)
     (state r) (data r) v (length r) (actual r) (local_ip r)
     (local_port r) (remote_ip r) (remote_port r) (host_info r).
Definition set_actual v r :=
  mk (device r) (socket r) (command r) (error r) (modes r) (flags r)
     (state r) (data r) (sock r) (length r) v (local_ip r)
     (local_port r) (remote_ip r) (remote_port r) (host_info r).
Definition set_local v p r :=
  mk (device r) (socket r) (command r) (error r) (modes r) (flags r)
     (state r) (data r) (sock r) (length r) (actual r) v p
     (remote_ip r) (remote_port r) (host_info r).
Definition set_remote_ip v r :=
  mk (device r) (socket r) (command r) (error r) (modes r) (flags r)
     (state r) (data r) (sock r) (length r) (actual r) (local_ip r)
     (local_port r) v (remote_port r) (host_info r).
Definition set_remote_port v r :=
  mk (device r) (socket r) (command r) (error r) (modes r) (flags r)
     (state r) (data r) (sock r) (length r) (actual r) (local_ip r)
     (local_port r) (remote_ip r) v (host_info r).
Definition set_host_info v r :=
  mk (device r) (socket r) (command r) (error r) (modes r) (flags r)
     (state r) (data r) (sock r) (length r) (actual r) (local_ip r)
     (local_port r) (remote_ip r) (remote_port r) v.
End devreq.

#[global] Instance devreq_eq_dec : EqDecision devreq.t.
Proof. solve_decision. Defined.

(** ** The operating system *)

Inductive sock_type := SOCK_DGRAM | SOCK_STREAM.
Inductive ip_proto := IPPROTO_UDP | IPPROTO_TCP.
Inductive sock_opt :=
| SO_NOSIGPIPE | SO_REUSEADDR
| IP_ADD_MEMBERSHIP | IP_DROP_MEMBERSHIP | IP_TTL.

(** The calls dev-net.c makes to the OS; ports cross this boundary in host
    order (the htons/ntohs pair of the source is the boundary itself). *)
Inductive syscall :=
| sys_socket (type : sock_type) (protocol : ip_proto)
| sys_setsockopt (fd : Z) (opt : sock_opt) (val : list Z)
| sys_ioctl_fionbio (fd : Z) (mode : Z)
| sys_fcntl_getfl (fd : Z)
| sys_fcntl_setfl (fd : Z) (fl : Z)
| sys_close (fd : Z)
| sys_free (p : Z)
| sys_gethostbyname (name : Z)
| sys_getsockname (fd : Z)
| sys_connect (fd : Z) (ip port : Z)
| sys_sendto (fd : Z) (buf len fl : Z) (ip port : Z)
| sys_recvfrom (fd : Z) (buf len : Z)
| sys_bind (fd : Z) (ip port : Z)
| sys_listen (fd : Z) (backlog : Z)
| sys_accept (fd : Z).

(** What a call gives back: its return value, the OS error code readable
    through GET_ERROR afterwards, and the address it fills in (accept,
    recvfrom, getsockname, gethostbyname). *)
Record reply := Reply {
  ret : Z;
  err : Z;
  addr_ip : Z;
  addr_port : Z
}.

(** The environment answers a call knowing every call made before it
    (the list is the history, newest call first). *)
Definition OS := list syscall -> reply.

Record machine := Machine {
  heap : gmap Z devreq.t;
  calls : list syscall;          (* newest first *)
  events : list (Z * EVT);       (* signalled (request, kind), newest first *)
  os_error : Z                   (* what GET_ERROR reads *)
}.

(** ** Programs: state passing with failure

    [None] is a run that does not return to the caller: a failed assertion,
    the [fail] of Modify_Socket, or an access through a pointer that is not
    a live request. *)
Definition M (A : Type) : Type := machine -> option (A * machine).

Definition mret {A} (a : A) : M A := fun m => Some (a, m).

Definition bind {A B} (c : M A) (k : A -> M B) : M B :=
  fun m => match c m with
           | Some (a, m') => k a m'
           | None => None
           end.

Definition abort {A} : M A := fun _ => None.

Notation "x <- c ;; k" := (bind c (fun x => k))
  (at level 100, c at next level, k at level 200, only parsing).
Notation "c ;; k" := (bind c (fun _ => k))
  (at level 100, k at level 200, only parsing).

(** [*req] *)
Definition load (req : Z) : M devreq.t :=
  fun m => match heap m !! req with
           | Some r => Some (r, m)
           | None => None
           end.

(** [*req = r] *)
Definition store (req : Z) (r : devreq.t) : M unit :=
  fun m => match heap m !! req with
           | Some _ =>
               Some (tt, Machine (<[req := r]> (heap m)) (calls m)
                                 (events m) (os_error m))
           | None => None
           end.

(** A write to one field: [req->f = v]. *)
Definition update (req : Z) (f : devreq.t -> devreq.t) : M unit :=
  r <- load req ;; store req (f r).

Definition GET_ERROR : M Z := fun m => Some (os_error m, m).

(** The counters [length] and [actual] are unsigned 32-bit in the C
    structure; their arithmetic wraps. *)
Definition u32 (z : Z) : Z := z mod 2 ^ 32.

(** The MIN macro. *)
Definition MIN (a b : Z) : Z := if a <? b then a else b.

(** The arguments Modify_Socket reads from the frame that [common.data]
    points to. *)
Record REBFRM := Frame {
  arg_group : Z;
  arg_member : Z;
  ref_drop : bool;
  arg_ttl : Z
}.

Section Handlers.
Context {P : Platform}.
Variable os : OS.

(** One call to the OS: the call is logged, the environment answers, and
    the error code of the answer is what GET_ERROR reads from then on. *)
Definition call (c : syscall) : M reply :=
  fun m =>
    let rp := os (c :: calls m) in
    Some (rp, Machine (heap m) (c :: calls m) (events m) (err rp)).

(** Modelled from the spec: Signal_Device is only declared in dev-net.c.
    It marks the event kind for the runtime's dispatcher; each signal
    identifies the request it pertains to. *)
Definition Signal_Device (req : Z) (type : EVT) : M unit :=
  fun m =>
    Some (tt, Machine (heap m) (calls m) ((req, type) :: events m)
                      (os_error m)).

(** Modelled from the spec: Attach_Request is only declared in dev-net.c.
    It appends the request to the pending-accept queue whose head the
    owner holds. *)
Definition Attach_Request (owner : Z) (req : Z) : M unit :=
  update owner (fun r => devreq.set_sock (devreq.sock r ++ [req]) r).

(** OS_ALLOC_ZEROFILL(struct devreq_net): a block that is neither NULL nor
    a live request, filled with zeros. *)
Definition OS_ALLOC_ZEROFILL : M Z :=
  fun m =>
    let p := fresh ({[0]} ∪ dom (heap m) : gset Z) in
    Some (p, Machine (<[p := devreq.zero]> (heap m)) (calls m) (events m)
                     (os_error m)).

(** OS_FREE of a scratch block. *)
Definition OS_FREE (p : Z) : M unit :=
  fun m =>
    Some (tt, Machine (heap m) (sys_free p :: calls m) (events m)
                      (os_error m)).

Definition Set_Addr (ip port : Z) : Z * Z := (ip, port mod 2 ^ 16).

Definition Get_Local_IP (sock : Z) : M unit :=
  r <- load sock ;;
  sa <- call (sys_getsockname (devreq.socket r)) ;;
  update sock (devreq.set_local (addr_ip sa) (addr_port sa)).

Definition Set_Sock_Options (sock : Z) : M bool :=
  nosig <- (if HAVE_SO_NOSIGPIPE then
              rp <- call (sys_setsockopt sock SO_NOSIGPIPE [1]) ;;
              mret (negb (ret rp <? 0))
            else mret true) ;;
  if negb nosig then mret false
  else if HAVE_FIONBIO then
    rp <- call (sys_ioctl_fionbio sock 1) ;;
    mret (ret rp =? 0)
  else
    fl <- call (sys_fcntl_getfl sock) ;;
    rp <- call (sys_fcntl_setfl sock (Z.lor (ret fl) O_NONBLOCK)) ;;
    mret (0 <=? ret rp).

Definition Open_Socket (sock : Z) : M DEVICE_CMD :=
  update sock (devreq.set_error 0) ;;
  update sock (devreq.set_state 0) ;;
  r <- load sock ;;
  let udp := negb (Z.land (devreq.modes r) RST_UDP =? 0) in
  let type := if udp then SOCK_DGRAM else SOCK_STREAM in
  let protocol := if udp then IPPROTO_UDP else IPPROTO_TCP in
  rp <- call (sys_socket type protocol) ;;
  let result := ret rp in
  if result =? BAD_SOCKET then
    e <- GET_ERROR ;;
    update sock (devreq.set_error e) ;;
    mret DR_ERROR
  else
    update sock (devreq.set_socket result) ;;
    update sock (fun r => devreq.set_state (Z.lor (devreq.state r) RSM_OPEN) r) ;;
    r <- load sock ;;
    ok <- Set_Sock_Options (devreq.socket r) ;;
    if negb ok then
      e <- GET_ERROR ;;
      update sock (devreq.set_error e) ;;
      mret DR_ERROR
    else mret DR_DONE.

Definition Close_Socket (req : Z) : M DEVICE_CMD :=
  update req (devreq.set_error 0) ;;
  r <- load req ;;
  if negb (Z.land (devreq.state r) RSM_OPEN =? 0) then
    update req (devreq.set_state 0) ;;
    r <- load req ;;
    (if negb (devreq.host_info r =? 0) then
       OS_FREE (devreq.host_info r) ;;
       update req (fun r => devreq.set_socket (devreq.length r) r)
     else mret tt) ;;
    r <- load req ;;
    rp <- call (sys_close (devreq.socket r)) ;;
    if negb (ret rp =? 0) then
      e <- GET_ERROR ;;
      update req (devreq.set_error e) ;;
      mret DR_ERROR
    else mret DR_DONE
  else mret DR_DONE.

Definition Lookup_Socket (req : Z) : M DEVICE_CMD :=
  update req (devreq.set_host_info 0) ;;
  r <- load req ;;
  host <- call (sys_gethostbyname (devreq.data r)) ;;
  if negb (ret host =? 0) then
    update req (devreq.set_remote_ip (addr_ip host)) ;;
    update req (fun r =>
      devreq.set_flags (Z.land (devreq.flags r) (Z.lnot RRF_DONE)) r) ;;
    Signal_Device req EVT_LOOKUP ;;
    mret DR_DONE
  else
    e <- GET_ERROR ;;
    update req (devreq.set_error e) ;;
    mret DR_ERROR.

Definition Listen_Socket (req : Z) : M DEVICE_CMD :=
  r <- load req ;;
  match devreq.sock r with
  | _ :: _ => abort            (* assert(req->common.sock == NULL) *)
  | [] =>
    let lserr : M DEVICE_CMD :=
      e <- GET_ERROR ;;
      update req (devreq.set_error e) ;;
      mret DR_ERROR in
    let sa := Set_Addr INADDR_ANY (devreq.local_port r) in
    rp <- call (sys_setsockopt (devreq.socket r) SO_REUSEADDR [1]) ;;
    if negb (ret rp =? 0) then lserr
    else
      rp <- call (sys_bind (devreq.socket r) (fst sa) (snd sa)) ;;
      if negb (ret rp =? 0) then lserr
      else
        update req (fun r =>
          devreq.set_state (Z.lor (devreq.state r) RSM_BIND) r) ;;
        r <- load req ;;
        let finish : M DEVICE_CMD :=
          Get_Local_IP req ;;
          update req (devreq.set_command RDC_CREATE) ;;
          mret DR_PEND in
        if Z.land (devreq.modes r) RST_UDP =? 0 then
          rp <- call (sys_listen (devreq.socket r) SOMAXCONN) ;;
          if negb (ret rp =? 0) then lserr
          else
            update req (fun r =>
              devreq.set_state (Z.lor (devreq.state r) RSM_LISTEN) r) ;;
            finish
        else finish
  end.

Definition Connect_Socket (req : Z) : M DEVICE_CMD :=
  r <- load req ;;
  if negb (Z.land (devreq.modes r) RST_LISTEN =? 0) then Listen_Socket req
  else if negb (Z.land (devreq.state r) RSM_CONNECT =? 0) then mret DR_DONE
  else
    let connected : M DEVICE_CMD :=
      update req (fun r =>
        devreq.set_state (Z.land (devreq.state r) (Z.lnot RSM_ATTEMPT)) r) ;;
      update req (fun r =>
        devreq.set_state (Z.lor (devreq.state r) RSM_CONNECT) r) ;;
      Get_Local_IP req ;;
      Signal_Device req EVT_CONNECT ;;
      mret DR_DONE in
    if negb (Z.land (devreq.modes r) RST_UDP =? 0) then connected
    else
      let sa := Set_Addr (devreq.remote_ip r) (devreq.remote_port r) in
      rp <- call (sys_connect (devreq.socket r) (fst sa) (snd sa)) ;;
      result <- (if negb (ret rp =? 0) then GET_ERROR else mret (ret rp)) ;;
      if (result =? 0) || (result =? NE_ISCONN) then connected
      else if (TO_WINDOWS && (result =? NE_INVALID))
              || (result =? NE_WOULDBLOCK)
              || (result =? NE_INPROGRESS)
              || (result =? NE_ALREADY) then
        update req (fun r =>
          devreq.set_state (Z.lor (devreq.state r) RSM_ATTEMPT) r) ;;
        mret DR_PEND
      else
        update req (fun r =>
          devreq.set_state (Z.land (devreq.state r) (Z.lnot RSM_ATTEMPT)) r) ;;
        update req (devreq.set_error result) ;;
        mret DR_ERROR.

Definition Transfer_Socket (req : Z) : M DEVICE_CMD :=
  r <- load req ;;
  let mode :=
    if decide (devreq.command r = RDC_READ) then RSM_RECEIVE else RSM_SEND in
  if (Z.land (devreq.state r) RSM_CONNECT =? 0)
     && (Z.land (devreq.modes r) RST_UDP =? 0) then
    update req (devreq.set_error (-18)) ;;
    mret DR_ERROR
  else
    update req (fun r => devreq.set_state (Z.lor (devreq.state r) mode) r) ;;
    r <- load req ;;
    (* Limit size of transfer *)
    let len := MIN (u32 (devreq.length r - devreq.actual r)) MAX_TRANSFER in
    let check_error : M DEVICE_CMD :=
      result <- GET_ERROR ;;
      if result =? NE_WOULDBLOCK then mret DR_PEND
      else
        update req (devreq.set_error result) ;;
        mret DR_ERROR in
    if mode =? RSM_SEND then
      let remote_addr :=
        Set_Addr (devreq.remote_ip r) (devreq.remote_port r) in
      rp <- call (sys_sendto (devreq.socket r) (devreq.data r) len
                    MSG_NOSIGNAL (fst remote_addr) (snd remote_addr)) ;;
      let result := ret rp in
      if 0 <=? result then
        update req (fun r => devreq.set_data (devreq.data r + result) r) ;;
        update req (fun r =>
          devreq.set_actual (u32 (devreq.actual r + result)) r) ;;
        r <- load req ;;
        if devreq.length r <=? devreq.actual r then
          Signal_Device req EVT_WROTE ;;
          mret DR_DONE
        else
          update req (fun r =>
            devreq.set_flags (Z.lor (devreq.flags r) RRF_ACTIVE) r) ;;
          mret DR_PEND
      else check_error
    else
      rp <- call (sys_recvfrom (devreq.socket r) (devreq.data r) len) ;;
      let result := ret rp in
      if 0 <? result then
        (if negb (Z.land (devreq.modes r) RST_UDP =? 0) then
           update req (devreq.set_remote_ip (addr_ip rp)) ;;
           update req (devreq.set_remote_port (addr_port rp))
         else mret tt) ;;
        update req (devreq.set_actual result) ;;
        Signal_Device req EVT_READ ;;
        mret DR_DONE
      else if result =? 0 then
        (* The socket gracefully closed. *)
        update req (devreq.set_actual 0) ;;
        update req (fun r =>
          devreq.set_state (Z.land (devreq.state r) (Z.lnot RSM_CONNECT)) r) ;;
        Signal_Device req EVT_CLOSE ;;
        mret DR_DONE
      else check_error.

(** [frame_] is the frame found at [sock->common.data]. *)
Definition Modify_Socket (frame_ : Z -> REBFRM) (sock : Z) : M DEVICE_CMD :=
  r <- load sock ;;
  if decide (devreq.command r = RDC_MODIFY) then
    let frm := frame_ (devreq.data r) in
    let finish (result : Z) : M DEVICE_CMD :=
      if result <? 0 then
        update sock (devreq.set_error result) ;;
        mret DR_ERROR
      else mret DR_DONE in
    let not_udp : M DEVICE_CMD :=
      update sock (devreq.set_error (-18)) ;;
      mret DR_ERROR in
    if devreq.flags r =? 3171 then
      if Z.land (devreq.modes r) RST_UDP =? 0 then not_udp
      else
        rp <- call (sys_setsockopt (devreq.socket r)
                      (if ref_drop frm then IP_DROP_MEMBERSHIP
                       else IP_ADD_MEMBERSHIP)
                      [arg_group frm; arg_member frm]) ;;
        finish (ret rp)
    else if devreq.flags r =? 2365 then
      if Z.land (devreq.modes r) RST_UDP =? 0 then not_udp
      else
        rp <- call (sys_setsockopt (devreq.socket r) IP_TTL [arg_ttl frm]) ;;
        finish (ret rp)
    else abort                 (* fail ("Unknown socket MODIFY operation") *)
  else abort.                  (* assert(sock->command == RDC_MODIFY) *)

Definition Accept_Socket (req : Z) : M DEVICE_CMD :=
  r <- load req ;;
  (* Accept a new socket, if there is one *)
  sa <- call (sys_accept (devreq.socket r)) ;;
  let result := ret sa in
  if result =? BAD_SOCKET then
    result <- GET_ERROR ;;
    if result =? NE_WOULDBLOCK then mret DR_PEND
    else
      update req (devreq.set_error result) ;;
      mret DR_ERROR
  else
    ok <- Set_Sock_Options result ;;
    if negb ok then
      e <- GET_ERROR ;;
      update req (devreq.set_error e) ;;
      mret DR_ERROR
    else
      news <- OS_ALLOC_ZEROFILL ;;
      r <- load req ;;
      update news (devreq.set_device (devreq.device r)) ;;
      update news (fun n =>
        devreq.set_flags (Z.lor (devreq.flags n) RRF_OPEN) n) ;;
      update news (fun n =>
        devreq.set_state
          (Z.lor (devreq.state n) (Z.lor RSM_OPEN RSM_CONNECT)) n) ;;
      update news (devreq.set_socket result) ;;
      update news (devreq.set_remote_ip (addr_ip sa)) ;;
      update news (devreq.set_remote_port (addr_port sa)) ;;
      Get_Local_IP news ;;
      Attach_Request req news ;;
      Signal_Device req EVT_ACCEPT ;;
      mret DR_PEND.

End Handlers.

(** ** A concrete platform and environment

    The values of the Ren-C headers on a POSIX system; they serve to run
    the handlers on explicit inputs. *)
Definition posix_nonzero : Forall (fun f => 0 < f) [1; 2; 4; 8; 16; 32; 64].
Proof. repeat constructor. Defined.

Definition posix_disjoint : pairwise_disjoint [1; 2; 4; 8; 16; 32; 64].
Proof. repeat constructor. Defined.

Definition posix : Platform := {|
  RST_UDP := 1; RST_LISTEN := 256;
  RSM_OPEN := 1; RSM_ATTEMPT := 2; RSM_CONNECT := 4; RSM_BIND := 8;
  RSM_LISTEN := 16; RSM_SEND := 32; RSM_RECEIVE := 64;
  RRF_OPEN := 1; RRF_DONE := 2; RRF_ACTIVE := 64;
  MAX_TRANSFER := 32000; BAD_SOCKET := -1;
  NE_ISCONN := 106; NE_WOULDBLOCK := 11; NE_INPROGRESS := 115;
  NE_ALREADY := 114; NE_INVALID := 22;
  O_NONBLOCK := 2048; SOMAXCONN := 128; INADDR_ANY := 0;
  MSG_NOSIGNAL := 16384;
  TO_WINDOWS := false; HAVE_SO_NOSIGPIPE := false; HAVE_FIONBIO := true;
  RSM_positive := posix_nonzero;
  RSM_disjoint := posix_disjoint;
  MAX_TRANSFER_pos := eq_refl
|}.

(** An environment that answers the n-th call with the n-th reply of a
    script, and refuses every call past its end. *)
Definition scripted (script : list reply) : OS :=
  fun history =>
    nth (Nat.pred (List.length history)) script (Reply (-1) 5 0 0).

(** A machine holding one request at address 100. *)
Definition single (r : devreq.t) : machine := Machine {[ 100 := r ]} [] [] 0.

(** A request with the given command, error slot, modes, state, length
    and actual; its handle is 3. *)
Definition request (c : RDC) (e mo st len act : Z) : devreq.t :=
  devreq.mk 1 3 c e mo 0 st 5000 [] len act 0 0 0 0 0.

(** The calls a run added to the log. *)
Definition is_close (c : syscall) : bool :=
  match c with sys_close _ => true | _ => false end.

Definition is_free (c : syscall) : bool :=
  match c with sys_free _ => true | _ => false end.


(** The machines reached from [m] by re-invoking the transfer handler on
    [req] any number of times. *)
Inductive retransfers {P : Platform} (os : OS) (req : Z)
    : machine -> machine -> Prop :=
| retransfers_refl m : retransfers os req m m
| retransfers_step m m1 m2 res :
    retransfers os req m m1 ->
    Transfer_Socket os req m1 = Some (res, m2) ->
    retransfers os req m m2.

(** How many times a list of calls releases a handle. *)
Definition releases (cs : list syscall) : nat :=
  List.length (List.filter is_close cs).


(** What one handler invocation on [req] may do to the store: the request
    stays live; unless the handler reports ERROR its error slot holds zero
    ([clears]) or its former value; the DNS scratch pointer keeps its
    value or is NULL; other live requests are untouched. *)
Definition footprint (clears : bool) (req : Z) (m : machine) (r : devreq.t)
    (res : DEVICE_CMD) (m' : machine) : Prop :=
  exists r',
    heap m' !! req = Some r' /\
    (res <> DR_ERROR ->
       devreq.error r' = if clears then 0 else devreq.error r) /\
    (devreq.host_info r' = devreq.host_info r \/ devreq.host_info r' = 0) /\
    (forall p c, p <> req -> heap m !! p = Some c -> heap m' !! p = Some c).

(** The request handlers of the dispatch table [Dev_Cmds], by command.
    (Init_Net and Quit_Net take the device itself, not a request; poll,
    query, delete and rename have no handler.) *)
Definition socket_handler {P : Platform} (os : OS) (frame_ : Z -> REBFRM)
    (c : RDC) : option (Z -> M DEVICE_CMD) :=
  match c with
  | RDC_OPEN => Some (Open_Socket os)
  | RDC_CLOSE => Some (Close_Socket os)
  | RDC_READ => Some (Transfer_Socket os)
  | RDC_WRITE => Some (Transfer_Socket os)
  | RDC_CONNECT => Some (Connect_Socket os)
  | RDC_MODIFY => Some (Modify_Socket os frame_)
  | RDC_CREATE => Some (Accept_Socket os)
  | RDC_LOOKUP => Some (Lookup_Socket os)
  | _ => None
  end.

(** The machines the device reaches from [m]: any number of times, the
    runtime rewrites fields of a request other than the DNS scratch
    pointer (the command, the buffer, the counters, the state flags it
    clears), or invokes a handler on a request. *)
Inductive invokes {P : Platform} (os : OS) (frame_ : Z -> REBFRM)
    : machine -> machine -> Prop :=
| invokes_refl m : invokes os frame_ m m
| invokes_runtime m m1 m2 q f :
    invokes os frame_ m m1 ->
    (forall r, devreq.host_info (f r) = devreq.host_info r) ->
    update q f m1 = Some (tt, m2) ->
    invokes os frame_ m m2
| invokes_handler m m1 m2 q c f res :
    invokes os frame_ m m1 ->
    socket_handler os frame_ c = Some f ->
    f q m1 = Some (res, m2) ->
    invokes os frame_ m m2.

(** An environment that accepts at most [k] bytes per send and refuses
    every other call. *)
Definition chunked (k : Z) : OS :=
  fun history =>
    match history with
    | sys_sendto _ _ len _ _ _ :: _ => Reply (Z.min len k) 0 0 0
    | _ => Reply (-1) 5 0 0
    end.

(** Explicit requests: a connected TCP client with a stale error code, a
    fresh TCP request, a TCP listener, a connected sender of ten bytes, a
    connected reader and a UDP request asked to set its TTL. *)
Definition connected_client : devreq.t := request RDC_CONNECT 77 0 5 0 0.
Definition fresh_tcp : devreq.t := request RDC_OPEN 0 0 0 0 0.
Definition listener : devreq.t := request RDC_CREATE 0 256 25 0 0.
Definition sender : devreq.t := request RDC_WRITE 0 0 5 10 0.
Definition reader : devreq.t := request RDC_READ 0 0 5 10 0.
Definition udp_ttl : devreq.t :=
  devreq.set_flags 2365 (request RDC_MODIFY 0 1 1 0 0).
Definition ttl_frame : Z -> REBFRM := fun _ => Frame 0 0 false 64.

(** ** The rest of the device *)

(** Init_Net and Quit_Net receive the device itself; of the device they
    only touch its flags.  [RDF_INIT] is the initialised bit and
    [wsa_startup] what WSAStartup answers on Windows.  Init_Net gives the
    result and the new flags; Quit_Net also tells whether WSACleanup was
    called. *)
Definition Init_Net {P : Platform} (RDF_INIT wsa_startup dev_flags : Z)
    : DEVICE_CMD * Z :=
  if TO_WINDOWS && negb (wsa_startup =? 0) then (DR_ERROR, dev_flags)
  else (DR_DONE, Z.lor dev_flags RDF_INIT).

Definition Quit_Net {P : Platform} (RDF_INIT dev_flags : Z)
    : DEVICE_CMD * Z * bool :=
  (DR_DONE, Z.land dev_flags (Z.lnot RDF_INIT),
   TO_WINDOWS && negb (Z.land dev_flags RDF_INIT =? 0)).

(** The machines reached from [m] by re-invoking the accept handler on
    [req] any number of times. *)
Inductive reaccepts {P : Platform} (os : OS) (req : Z)
    : machine -> machine -> Prop :=
| reaccepts_refl m : reaccepts os req m m
| reaccepts_step m m1 m2 res :
    reaccepts os req m m1 ->
    Accept_Socket os req m1 = Some (res, m2) ->
    reaccepts os req m m2.

(** The byte count a call asks the OS to transfer, if it is a transfer. *)
Definition transfer_len (c : syscall) : option Z :=
  match c with
  | sys_sendto _ _ len _ _ _ => Some len
  | sys_recvfrom _ _ len => Some len
  | _ => None
  end.

Definition is_connect (c : syscall) : bool :=
  match c with sys_connect _ _ _ => true | _ => false end.

Definition is_listen (c : syscall) : bool :=
  match c with sys_listen _ _ => true | _ => false end.

(** The handle a call works on ([None] for calls that take none). *)
Definition call_fd (c : syscall) : option Z :=
  match c with
  | sys_socket _ _ => None
  | sys_setsockopt fd _ _ => Some fd
  | sys_ioctl_fionbio fd _ => Some fd
  | sys_fcntl_getfl fd => Some fd
  | sys_fcntl_setfl fd _ => Some fd
  | sys_close fd => Some fd
  | sys_free _ => None
  | sys_gethostbyname _ => None
  | sys_getsockname fd => Some fd
  | sys_connect fd _ _ => Some fd
  | sys_sendto fd _ _ _ _ _ => Some fd
  | sys_recvfrom fd _ _ => Some fd
  | sys_bind fd _ _ => Some fd
  | sys_listen fd _ => Some fd
  | sys_accept fd => Some fd
  end.

(** Does a call ask for non-blocking mode on [fd]? *)
Definition sets_nonblocking {P : Platform} (fd : Z) (c : syscall) : Prop :=
  match c with
  | sys_ioctl_fionbio fd' mode => fd' = fd /\ mode = 1
  | sys_fcntl_setfl fd' fl => fd' = fd /\ Z.land fl O_NONBLOCK = O_NONBLOCK
  | _ => False
  end.

(** More explicit requests: a UDP request that is open, a TCP request that
    is open but not connected, a request caught in a DNS phase (scratch
    block 900, real handle 42 parked in the length field), and a TCP
    listener before listen. *)
Definition udp_open : devreq.t := request RDC_CONNECT 0 1 1 0 0.
Definition tcp_open : devreq.t := request RDC_CONNECT 0 0 1 0 0.
Definition dns_pending : devreq.t :=
  devreq.set_host_info 900 (request RDC_CLOSE 0 0 1 42 0).
Definition tcp_server : devreq.t :=
  devreq.set_local 0 8080 (request RDC_CONNECT 0 256 1 0 0).
Definition join_frame : Z -> REBFRM := fun _ => Frame 224 127 false 0.
Definition udp_join : devreq.t :=
  devreq.set_flags 3171 (request RDC_MODIFY 0 1 1 0 0).

(** The runtime polls a pending transfer: it re-invokes the handler while
    the result is PEND, at most [fuel] times, and reports how many
    invocations it took to get DONE ([None] when an invocation reported
    ERROR or the polls ran out). *)
Fixpoint resend {P : Platform} (os : OS) (fuel : nat) (req : Z)
    : M (option nat) :=
  match fuel with
  | O => mret None
  | S k =>
      res <- Transfer_Socket os req ;;
      match res with
      | DR_DONE => mret (Some 1%nat)
      | DR_PEND => n <- resend os k req ;; mret (option_map S n)
      | DR_ERROR => mret None
      end
  end.

(** A UDP exchange from scratch, as the runtime drives it: open, connect,
    then a write. *)
Definition udp_session {P : Platform} (os : OS) (req : Z)
    : M (DEVICE_CMD * DEVICE_CMD * DEVICE_CMD) :=
  o <- Open_Socket os req ;;
  c <- Connect_Socket os req ;;
  update req (devreq.set_command RDC_WRITE) ;;
  w <- Transfer_Socket os req ;;
  mret (o, c, w).

(** An environment in which nothing fails: every call answers zero,
    except that a socket or an accept yields handle 7 and a send takes
    every byte it is given. *)
Definition obliging : OS :=
  fun history =>
    match history with
    | sys_socket _ _ :: _ => Reply 7 0 0 0
    | sys_accept _ :: _ => Reply 7 0 9 4000
    | sys_sendto _ _ len _ _ _ :: _ => Reply len 0 0 0
    | sys_getsockname _ :: _ => Reply 0 0 5 6000
    | _ => Reply 0 0 0 0
    end.

(** Still more explicit requests: a UDP listener before listen, a TCP
    request asked to set its TTL, and a fresh UDP request with ten bytes
    to send. *)
Definition udp_server : devreq.t :=
  devreq.set_local 0 8080 (request RDC_CONNECT 0 257 1 0 0).
Definition tcp_ttl : devreq.t :=
  devreq.set_flags 2365 (request RDC_MODIFY 0 0 1 0 0).
Definition udp_fresh : devreq.t := request RDC_OPEN 0 1 0 10 0.

Definition is_accept (c : syscall) : bool :=
  match c with sys_accept _ => true | _ => false end.

(** The connections a call log shows as accepted: the handles the OS
    returned to the accept calls of the log, oldest first. *)
Fixpoint accepted {P : Platform} (os : OS) (log : list syscall) : list Z :=
  match log with
  | [] => []
  | c :: h =>
      accepted os h ++
      (if is_accept c && negb (ret (os (c :: h)) =? BAD_SOCKET)
       then [ret (os (c :: h))] else [])
  end.
(** ** Bit sets *)

Lemma land_lor_same s f : 0 < f -> Z.land (Z.lor s f) f <> 0.
Proof.
  intros Hf E. rewrite Z.land_lor_distr_l, Z.land_diag in E.
  apply Z.lor_eq_0_iff in E. lia.
Qed.

Lemma land_lor_other s f g :
  Z.land f g = 0 -> Z.land (Z.lor s f) g = Z.land s g.
Proof.
  intros D. now rewrite Z.land_lor_distr_l, D, Z.lor_0_r.
Qed.

Lemma land_clear_same s f : Z.land (Z.land s (Z.lnot f)) f = 0.
Proof.
  rewrite <- Z.land_assoc, (Z.land_comm (Z.lnot f)), Z.land_lnot_diag.
  apply Z.land_0_r.
Qed.

Lemma land_clear_other s f g :
  Z.land f g = 0 -> Z.land (Z.land s (Z.lnot f)) g = Z.land s g.
Proof.
  intros D. rewrite <- Z.land_assoc. f_equal.
  apply Z.bits_inj'. intros n Hn.
  rewrite Z.land_spec, Z.lnot_spec by assumption.
  assert (B : Z.testbit (Z.land f g) n = false) by (rewrite D; apply Z.bits_0).
  rewrite Z.land_spec in B.
  destruct (Z.testbit f n), (Z.testbit g n); simpl in *; congruence.
Qed.

Lemma disjoint_distinct f g : 0 < f -> Z.land f g = 0 -> f <> g.
Proof. intros Hf D ->. rewrite Z.land_diag in D. lia. Qed.

(** The laws of a platform, flag by flag. *)
Ltac flag_laws :=
  let N := fresh "N" in
  let D := fresh "D" in
  pose proof RSM_positive as N; pose proof RSM_disjoint as D;
  unfold pairwise_disjoint in D;
  repeat match goal with
         | H : ForallOrdPairs _ (_ :: _) |- _ => inversion H; clear H; subst
         | H : ForallOrdPairs _ [] |- _ => clear H
         | H : Forall _ (_ :: _) |- _ => inversion H; clear H; subst
         | H : Forall _ [] |- _ => clear H
         end.

Section Facts.
Context {P : Platform}.
Variable os : OS.

Lemma OPEN_CONNECT_disjoint : Z.land RSM_OPEN RSM_CONNECT = 0.
Proof. flag_laws. assumption. Qed.

Lemma SEND_RECEIVE_disjoint : Z.land RSM_SEND RSM_RECEIVE = 0.
Proof. flag_laws. assumption. Qed.

Lemma SEND_CONNECT_disjoint : Z.land RSM_CONNECT RSM_SEND = 0.
Proof. flag_laws. assumption. Qed.

Lemma RECEIVE_CONNECT_disjoint : Z.land RSM_CONNECT RSM_RECEIVE = 0.
Proof. flag_laws. assumption. Qed.

Lemma RECEIVE_OPEN_disjoint : Z.land RSM_OPEN RSM_RECEIVE = 0.
Proof. flag_laws. assumption. Qed.

Lemma RSM_OPEN_pos : 0 < RSM_OPEN.
Proof. flag_laws. assumption. Qed.

Lemma RSM_CONNECT_pos : 0 < RSM_CONNECT.
Proof. flag_laws. assumption. Qed.

Lemma RSM_SEND_pos : 0 < RSM_SEND.
Proof. flag_laws. assumption. Qed.

Lemma RSM_RECEIVE_pos : 0 < RSM_RECEIVE.
Proof. flag_laws. assumption. Qed.

Lemma RECEIVE_not_SEND : (RSM_RECEIVE =? RSM_SEND) = false.
Proof.
  apply Z.eqb_neq. intros E. symmetry in E. revert E.
  apply disjoint_distinct; [apply RSM_SEND_pos | apply SEND_RECEIVE_disjoint].
Qed.

(** ** Running programs step by step *)

Lemma bind_load {A} req (k : devreq.t -> M A) m r :
  heap m !! req = Some r -> bind (load req) k m = k r m.
Proof. intros H. unfold bind, load. now rewrite H. Qed.

Lemma bind_update {A} req f (k : unit -> M A) m r :
  heap m !! req = Some r ->
  bind (update req f) k m =
  k tt (Machine (<[req := f r]> (heap m)) (calls m) (events m) (os_error m)).
Proof. intros H. unfold update, bind, load, store. now rewrite H, H. Qed.

Lemma bind_call {A} c (k : reply -> M A) m :
  bind (call os c) k m =
  k (os (c :: calls m))
    (Machine (heap m) (c :: calls m) (events m) (err (os (c :: calls m)))).
Proof. reflexivity. Qed.

Lemma bind_GET_ERROR {A} (k : Z -> M A) m :
  bind GET_ERROR k m = k (os_error m) m.
Proof. reflexivity. Qed.

Lemma bind_Signal_Device {A} req e (k : unit -> M A) m :
  bind (Signal_Device req e) k m =
  k tt (Machine (heap m) (calls m) ((req, e) :: events m) (os_error m)).
Proof. reflexivity. Qed.

Lemma bind_OS_FREE {A} p (k : unit -> M A) m :
  bind (OS_FREE p) k m =
  k tt (Machine (heap m) (sys_free p :: calls m) (events m) (os_error m)).
Proof. reflexivity. Qed.

Lemma bind_mret {A B} (a : A) (k : A -> M B) m : bind (mret a) k m = k a m.
Proof. reflexivity. Qed.

Lemma bind_assoc {A B C} (c : M A) (k : A -> M B) (k' : B -> M C) m :
  bind (bind c k) k' m = bind c (fun a => bind (k a) k') m.
Proof. unfold bind. destruct (c m) as [[a m']|]; reflexivity. Qed.

Lemma bind_if {A B} (b : bool) (c1 c2 : M A) (k : A -> M B) m :
  bind (if b then c1 else c2) k m =
  if b then bind c1 k m else bind c2 k m.
Proof. destruct b; reflexivity. Qed.

Lemma if_apply {A} (b : bool) (c1 c2 : M A) m :
  (if b then c1 else c2) m = if b then c1 m else c2 m.
Proof. destruct b; reflexivity. Qed.

End Facts.

Ltac fields :=
  cbn [heap calls events os_error
       devreq.device devreq.socket devreq.command devreq.error devreq.modes
       devreq.flags devreq.state devreq.data devreq.sock devreq.length
       devreq.actual devreq.local_ip devreq.local_port devreq.remote_ip
       devreq.remote_port devreq.host_info
       devreq.set_device devreq.set_socket devreq.set_command
       devreq.set_error devreq.set_flags devreq.set_state devreq.set_data
       devreq.set_sock devreq.set_actual devreq.set_local
       devreq.set_remote_ip devreq.set_remote_port devreq.set_host_info
       fst snd Set_Addr].

Ltac heap_lookup :=
  cbn [heap];
  first [ eassumption
        | apply lookup_insert_eq
        | rewrite lookup_insert_ne by congruence; heap_lookup ].

Ltac mstep :=
  first
  [ rewrite bind_mret
  | rewrite bind_GET_ERROR
  | rewrite bind_Signal_Device
  | rewrite bind_OS_FREE
  | rewrite bind_call
  | erewrite bind_load by heap_lookup
  | erewrite bind_update by heap_lookup
  | rewrite bind_assoc
  | rewrite bind_if
  | rewrite if_apply ];
  fields; rewrite ?insert_insert_eq.

Ltac msplit :=
  match goal with
  | |- context [if ?c then _ else _] =>
      let E := fresh "E" in destruct c eqn:E
  end.


Ltac done_run := cbv beta iota delta [mret abort]; fields.

Section Options.
Context {P : Platform}.
Variable os : OS.

(** Set_Sock_Options always returns; it only talks to the OS. *)
Lemma Set_Sock_Options_frame fd m :
  exists ok cs e,
    Set_Sock_Options os fd m =
    Some (ok, Machine (heap m) (cs ++ calls m) (events m) e) /\
    Forall (fun c => is_close c = false /\ is_free c = false) cs /\
    (cs = [] -> e = os_error m).
Proof.
  unfold Set_Sock_Options.
  destruct HAVE_SO_NOSIGPIPE; repeat mstep.
  - destruct (negb (negb _)); [|destruct HAVE_FIONBIO]; repeat mstep;
      done_run;
      first [ eexists _, [_], _; split; [reflexivity|]
            | eexists _, [_; _], _; split; [reflexivity|]
            | eexists _, [_; _; _], _; split; [reflexivity|] ];
      (split; [repeat constructor | discriminate]).
  - cbn [negb]. destruct HAVE_FIONBIO; repeat mstep; done_run;
      first [ eexists _, [_], _; split; [reflexivity|]
            | eexists _, [_; _], _; split; [reflexivity|] ];
      (split; [repeat constructor | discriminate]).
Qed.

Lemma bind_Set_Sock_Options {A} fd (k : bool -> M A) m :
  exists ok cs e,
    bind (Set_Sock_Options os fd) k m =
    k ok (Machine (heap m) (cs ++ calls m) (events m) e) /\
    Forall (fun c => is_close c = false /\ is_free c = false) cs.
Proof.
  destruct (Set_Sock_Options_frame fd m) as (ok & cs & e & Hs & Hc & _).
  exists ok, cs, e. split; [|exact Hc]. unfold bind. now rewrite Hs.
Qed.

End Options.

Ltac mopts :=
  match goal with
  | |- context [bind (Set_Sock_Options ?os ?fd) ?k ?m] =>
      let ok := fresh "ok" in
      let cs := fresh "cs" in
      let e := fresh "e" in
      let Hb := fresh "Hb" in
      let Hc := fresh "Hc" in
      destruct (bind_Set_Sock_Options os fd k m) as (ok & cs & e & Hb & Hc);
      rewrite Hb; clear Hb; fields
  end.

Ltac mrun :=
  repeat first [mstep | mopts | (msplit; cbv beta iota; cbn [negb andb orb])].

Ltac mfinish :=
  done_run;
  let E := fresh "E" in
  intros E; first [ discriminate E | injection E as <- <- ]; fields.

Ltac footprint_done :=
  done_run;
  let E := fresh "E" in
  intros E;
  first
  [ discriminate E
  | injection E as <- <-; unfold footprint; fields;
    eexists; split; [heap_lookup|]; fields;
    split; [intros; first [reflexivity | congruence]|];
    split; [first [left; reflexivity | right; reflexivity]|];
    intros; rewrite ?lookup_insert_ne by congruence; assumption ].

(** ** What every handler leaves alone *)

Section Footprints.
Context {P : Platform}.
Variable os : OS.

Lemma Listen_footprint req m r res m' :
  heap m !! req = Some r ->
  Listen_Socket os req m = Some (res, m') -> footprint false req m r res m'.
Proof.
  intros Hreq. unfold Listen_Socket, Get_Local_IP. mstep.
  destruct (devreq.sock r); [|mfinish].
  mrun; footprint_done.
Qed.

Lemma Connect_footprint req m r res m' :
  heap m !! req = Some r ->
  Connect_Socket os req m = Some (res, m') -> footprint false req m r res m'.
Proof.
  intros Hreq. unfold Connect_Socket, Get_Local_IP. mstep.
  destruct (negb (Z.land (devreq.modes r) RST_LISTEN =? 0)).
  { apply Listen_footprint; assumption. }
  mrun; footprint_done.
Qed.

Lemma Transfer_footprint req m r res m' :
  heap m !! req = Some r ->
  Transfer_Socket os req m = Some (res, m') -> footprint false req m r res m'.
Proof.
  intros Hreq. unfold Transfer_Socket. mrun; footprint_done.
Qed.

Lemma Modify_footprint frame_ req m r res m' :
  heap m !! req = Some r ->
  Modify_Socket os frame_ req m = Some (res, m') ->
  footprint false req m r res m'.
Proof.
  intros Hreq. unfold Modify_Socket. mrun; footprint_done.
Qed.

Lemma Lookup_footprint req m r res m' :
  heap m !! req = Some r ->
  Lookup_Socket os req m = Some (res, m') -> footprint false req m r res m'.
Proof.
  intros Hreq. unfold Lookup_Socket. mrun; footprint_done.
Qed.

Lemma Open_footprint req m r res m' :
  heap m !! req = Some r ->
  Open_Socket os req m = Some (res, m') -> footprint true req m r res m'.
Proof.
  intros Hreq. unfold Open_Socket. mrun; footprint_done.
Qed.

Lemma Close_footprint req m r res m' :
  heap m !! req = Some r ->
  Close_Socket os req m = Some (res, m') -> footprint true req m r res m'.
Proof.
  intros Hreq. unfold Close_Socket. mrun; footprint_done.
Qed.

Lemma alloc_fresh (h : gmap Z devreq.t) :
  fresh ({[0]} ∪ dom h : gset Z) <> 0 /\
  h !! fresh ({[0]} ∪ dom h : gset Z) = None.
Proof.
  pose proof (is_fresh ({[0]} ∪ dom h : gset Z)) as F.
  split.
  - intros E. apply F. rewrite E. set_solver.
  - apply not_elem_of_dom. set_solver.
Qed.

Lemma bind_OS_ALLOC_ZEROFILL {A} (k : Z -> M A) m :
  bind OS_ALLOC_ZEROFILL k m =
  k (fresh ({[0]} ∪ dom (heap m) : gset Z))
    (Machine (<[fresh ({[0]} ∪ dom (heap m) : gset Z) := devreq.zero]> (heap m))
             (calls m) (events m) (os_error m)).
Proof. reflexivity. Qed.

Lemma Accept_footprint req m r res m' :
  heap m !! req = Some r ->
  Accept_Socket os req m = Some (res, m') -> footprint false req m r res m'.
Proof.
  intros Hreq. unfold Accept_Socket, Get_Local_IP, Attach_Request.
  destruct (alloc_fresh (heap m)) as [Hnull Hfresh].
  assert (Hne : fresh ({[0]} ∪ dom (heap m) : gset Z) <> req) by congruence.
  mrun; try footprint_done.
  all: rewrite bind_OS_ALLOC_ZEROFILL; fields;
    set (news := fresh _) in *; mrun.
  all: done_run; intros EQ; injection EQ as <- <-; unfold footprint; fields.
  all: eexists; split; [apply lookup_insert_eq|]; fields.
  all: split; [reflexivity|]; split; [left; reflexivity|].
  all: intros p c Hp Hlive; rewrite lookup_insert_ne by congruence.
  all: rewrite lookup_insert_ne by congruence; assumption.
Qed.

Lemma handler_needs_request frame_ c f q m :
  socket_handler os frame_ c = Some f ->
  heap m !! q = None -> f q m = None.
Proof.
  intros Hf Hq.
  destruct c; cbn in Hf; try discriminate; injection Hf as <-;
    unfold Open_Socket, Close_Socket, Transfer_Socket, Connect_Socket,
      Modify_Socket, Accept_Socket, Lookup_Socket, update, bind, load;
    rewrite Hq; reflexivity.
Qed.

Lemma handler_footprint frame_ c f q m rq res m' :
  socket_handler os frame_ c = Some f ->
  heap m !! q = Some rq ->
  f q m = Some (res, m') ->
  exists b, footprint b q m rq res m'.
Proof.
  intros Hf Hq Hrun.
  destruct c; cbn in Hf; try discriminate; injection Hf as <-;
    eauto using Open_footprint, Close_footprint, Transfer_footprint,
      Connect_footprint, Modify_footprint, Accept_footprint,
      Lookup_footprint.
Qed.

Lemma invokes_keep_scratch_null frame_ req m1 m2 r1 :
  heap m1 !! req = Some r1 ->
  devreq.host_info r1 = 0 ->
  invokes os frame_ m1 m2 ->
  exists r2, heap m2 !! req = Some r2 /\ devreq.host_info r2 = 0.
Proof.
  intros Hreq Hnull Hrun.
  induction Hrun as [m | m ma mb q g _ IH Hg Hset
                       | m ma mb q c f res _ IH Hf Hq].
  - eauto.
  - destruct (IH Hreq) as (ra & Ha & Hna).
    unfold update, bind, load, store in Hset.
    destruct (heap ma !! q) as [rq|] eqn:Hq; [|discriminate].
    cbv beta iota in Hset. fields. rewrite Hq in Hset.
    injection Hset as <-. fields.
    destruct (decide (q = req)) as [->|Hne].
    + rewrite lookup_insert_eq. eexists; split; [reflexivity|].
      rewrite Hg. congruence.
    + rewrite lookup_insert_ne by assumption. eauto.
  - destruct (IH Hreq) as (ra & Ha & Hna).
    destruct (heap ma !! q) as [rq|] eqn:Hlive.
    2:{ rewrite (handler_needs_request _ _ _ _ _ Hf Hlive) in Hq.
        discriminate. }
    destruct (handler_footprint _ _ _ _ _ _ _ _ Hf Hlive Hq)
      as (b & r' & Hr' & _ & Hinfo & Hothers).
    destruct (decide (q = req)) as [->|Hne].
    + exists r'. split; [assumption|]. destruct Hinfo; congruence.
    + exists ra. split; [|assumption]. apply Hothers; congruence.
Qed.

End Footprints.

Section Claims.
Context {P : Platform}.
Variable os : OS.

(** C9: on a request that is not a listener and whose CONNECT flag is
    already set, connect returns DONE and leaves the whole machine as it
    was: no call reaches the OS, no field of the request changes and no
    event is signalled. *)
Theorem connect_when_connected req m r :
  heap m !! req = Some r ->
  Z.land (devreq.modes r) RST_LISTEN = 0 ->
  Z.land (devreq.state r) RSM_CONNECT <> 0 ->
  Connect_Socket os req m = Some (DR_DONE, m).
Proof.
  intros Hreq Hl Hc. unfold Connect_Socket.
  mstep. rewrite Hl. cbn [Z.eqb negb].
  apply Z.eqb_neq in Hc. rewrite Hc. reflexivity.
Qed.


(** C2, amended: open on a live request always returns, and when it
    returns ERROR the OS error code is in the error slot.  If the socket
    could not be created, no handle is stored and no state flag is set.
    If the socket was created, its handle is stored and OPEN is set,
    also when applying the socket options fails afterwards (the request
    is then closed through Close_Socket). *)
Theorem open_failure_paths req m r :
  heap m !! req = Some r ->
  let udp := negb (Z.land (devreq.modes r) RST_UDP =? 0) in
  let rp :=
    os (sys_socket (if udp then SOCK_DGRAM else SOCK_STREAM)
                   (if udp then IPPROTO_UDP else IPPROTO_TCP) :: calls m) in
  exists res m' r',
    Open_Socket os req m = Some (res, m') /\
    heap m' !! req = Some r' /\
    (res = DR_ERROR -> devreq.error r' = os_error m') /\
    (ret rp = BAD_SOCKET ->
       res = DR_ERROR /\ devreq.socket r' = devreq.socket r /\
       devreq.state r' = 0) /\
    (ret rp <> BAD_SOCKET ->
       devreq.socket r' = ret rp /\
       Z.land (devreq.state r') RSM_OPEN <> 0).
Proof.
  intros Hreq udp rp. unfold Open_Socket. repeat mstep.
  fold udp. fold rp. destruct (ret rp =? BAD_SOCKET) eqn:Hbad.
  - apply Z.eqb_eq in Hbad. repeat mstep. done_run.
    eexists _, _, _. split; [reflexivity|]. fields.
    split; [apply lookup_insert_eq|]. fields.
    repeat split; try reflexivity; intros; congruence.
  - apply Z.eqb_neq in Hbad. repeat mstep. mopts.
    destruct ok; cbn [negb]; repeat mstep; done_run;
      (eexists _, _, _; split; [reflexivity|]; fields;
       split; [apply lookup_insert_eq|]; fields;
       repeat split; try reflexivity; try congruence;
       apply land_lor_same, RSM_OPEN_pos).
Qed.

(** C1, amended: only open and close zero the error slot when they start:
    their outcome does not depend on what the slot held, and the slot
    holds zero whenever they do not report ERROR.  Connect, listen,
    transfer, modify, accept and lookup never clear it: whenever they do
    not report ERROR the slot still holds its former value. *)
Theorem error_slot_cleared_by_open_and_close frame_ req m r :
  heap m !! req = Some r ->
  (forall H e,
     In H [Open_Socket os; Close_Socket os] ->
     H req (Machine (<[req := devreq.set_error e r]> (heap m))
                    (calls m) (events m) (os_error m)) = H req m /\
     forall res m', H req m = Some (res, m') -> res <> DR_ERROR ->
       exists r', heap m' !! req = Some r' /\ devreq.error r' = 0) /\
  (forall H,
     In H [Connect_Socket os; Listen_Socket os; Transfer_Socket os;
           Modify_Socket os frame_; Accept_Socket os; Lookup_Socket os] ->
     forall res m', H req m = Some (res, m') -> res <> DR_ERROR ->
       exists r', heap m' !! req = Some r' /\
                  devreq.error r' = devreq.error r).
Proof.
  intros Hreq. split.
  - intros H e [<-|[<-|[]]]; split.
    + unfold Open_Socket. rewrite (bind_update _ _ _ m r Hreq).
      erewrite bind_update by heap_lookup. fields.
      rewrite insert_insert_eq. reflexivity.
    + intros res m' Hrun Hres.
      destruct (Open_footprint os _ _ _ _ _ Hreq Hrun) as (r' & ? & He & _).
      exists r'. auto.
    + unfold Close_Socket. rewrite (bind_update _ _ _ m r Hreq).
      erewrite bind_update by heap_lookup. fields.
      rewrite insert_insert_eq. reflexivity.
    + intros res m' Hrun Hres.
      destruct (Close_footprint os _ _ _ _ _ Hreq Hrun) as (r' & ? & He & _).
      exists r'. auto.
  - intros H HIn res m' Hrun Hres.
    assert (F : footprint false req m r res m').
    { cbn [In] in HIn.
      destruct HIn as [<-|[<-|[<-|[<-|[<-|[<-|[]]]]]]];
        eauto using Connect_footprint, Listen_footprint, Transfer_footprint,
          Modify_footprint, Accept_footprint, Lookup_footprint. }
    destruct F as (r' & ? & He & _). exists r'. auto.
Qed.

(** C10: lookup on a live request always returns; it leaves the DNS
    scratch pointer NULL, allocates nothing, and leaves the socket-handle
    slot and the length field as they were.  After it, whatever handlers
    the device runs and on whichever requests, the scratch pointer of the
    request is still NULL, so a close of the request frees no scratch
    block and restores no handle from the length field: it either asks
    nothing of the OS or closes the handle held in the socket slot. *)
Theorem lookup_leaves_dns_abort_unreachable frame_ req m r :
  heap m !! req = Some r ->
  exists res m1 r1,
    Lookup_Socket os req m = Some (res, m1) /\
    heap m1 !! req = Some r1 /\
    devreq.host_info r1 = 0 /\
    devreq.socket r1 = devreq.socket r /\
    devreq.length r1 = devreq.length r /\
    dom (heap m1) = dom (heap m) /\
    forall m2, invokes os frame_ m1 m2 ->
      exists r2 res' m3,
        heap m2 !! req = Some r2 /\
        devreq.host_info r2 = 0 /\
        Close_Socket os req m2 = Some (res', m3) /\
        (calls m3 = calls m2 \/
         calls m3 = sys_close (devreq.socket r2) :: calls m2).
Proof.
  intros Hreq.
  assert (Hdom : forall x, dom (<[req := x]> (heap m)) = dom (heap m)).
  { intros x. apply dom_insert_lookup_L. eauto. }
  assert (Hclose : forall m2 r2,
    heap m2 !! req = Some r2 -> devreq.host_info r2 = 0 ->
    exists res' m3,
      Close_Socket os req m2 = Some (res', m3) /\
      (calls m3 = calls m2 \/
       calls m3 = sys_close (devreq.socket r2) :: calls m2)).
  { intros m2 r2 H2 Hnull. unfold Close_Socket. repeat mstep.
    rewrite Hnull. cbn [Z.eqb negb].
    mrun; done_run; eexists _, _; (split; [reflexivity|]); fields; auto. }
  assert (Hafter : forall m1 r1,
    heap m1 !! req = Some r1 -> devreq.host_info r1 = 0 ->
    forall m2, invokes os frame_ m1 m2 ->
      exists r2 res' m3,
        heap m2 !! req = Some r2 /\
        devreq.host_info r2 = 0 /\
        Close_Socket os req m2 = Some (res', m3) /\
        (calls m3 = calls m2 \/
         calls m3 = sys_close (devreq.socket r2) :: calls m2)).
  { intros m1 r1 H1 Hnull m2 Hrun.
    destruct (invokes_keep_scratch_null os _ _ _ _ _ H1 Hnull Hrun)
      as (r2 & H2 & Hnull2).
    destruct (Hclose _ _ H2 Hnull2) as (res' & m3 & Hc & Hcalls).
    exists r2, res', m3. auto. }
  unfold Lookup_Socket. repeat mstep. msplit; repeat mstep; done_run.
  - eexists _, _, _. split; [reflexivity|]. fields.
    split; [apply lookup_insert_eq|]. fields.
    repeat (split; [first [reflexivity | apply Hdom]|]).
    eapply Hafter; [fields; apply lookup_insert_eq | reflexivity].
  - eexists _, _, _. split; [reflexivity|]. fields.
    split; [apply lookup_insert_eq|]. fields.
    repeat (split; [first [reflexivity | apply Hdom]|]).
    eapply Hafter; [fields; apply lookup_insert_eq | reflexivity].
Qed.

(** C6: on a connected TCP request, a receive whose read returns zero
    bytes returns DONE, clears CONNECT, leaves OPEN as it was (so set, if
    it was set), sets actual to zero and signals a close event on the
    request. *)
Theorem receive_zero_is_peer_close req m r :
  heap m !! req = Some r ->
  devreq.command r = RDC_READ ->
  Z.land (devreq.state r) RSM_CONNECT <> 0 ->
  Z.land (devreq.modes r) RST_UDP = 0 ->
  ret (os (sys_recvfrom (devreq.socket r) (devreq.data r)
             (MIN (u32 (devreq.length r - devreq.actual r)) MAX_TRANSFER)
           :: calls m)) = 0 ->
  exists m' r',
    Transfer_Socket os req m = Some (DR_DONE, m') /\
    heap m' !! req = Some r' /\
    Z.land (devreq.state r') RSM_CONNECT = 0 /\
    Z.land (devreq.state r') RSM_OPEN = Z.land (devreq.state r) RSM_OPEN /\
    (Z.land (devreq.state r) RSM_OPEN <> 0 ->
     Z.land (devreq.state r') RSM_OPEN <> 0) /\
    devreq.actual r' = 0 /\
    events m' = (req, EVT_CLOSE) :: events m.
Proof.
  intros Hreq Hcmd Hconn Htcp Hzero. unfold Transfer_Socket. mstep.
  rewrite Hcmd. destruct (decide (RDC_READ = RDC_READ)); [|congruence].
  apply Z.eqb_neq in Hconn. rewrite Hconn. cbn [andb].
  repeat mstep. rewrite RECEIVE_not_SEND. repeat mstep.
  rewrite Hzero. cbn [Z.ltb Z.eqb Z.compare]. repeat mstep. done_run.
  assert (Hopen : Z.land (Z.land (Z.lor (devreq.state r) RSM_RECEIVE)
                            (Z.lnot RSM_CONNECT)) RSM_OPEN
                  = Z.land (devreq.state r) RSM_OPEN).
  { rewrite land_clear_other
      by (rewrite Z.land_comm; apply OPEN_CONNECT_disjoint).
    apply land_lor_other. rewrite Z.land_comm. apply RECEIVE_OPEN_disjoint. }
  eexists _, _. split; [reflexivity|]. fields.
  split; [apply lookup_insert_eq|]. fields.
  split; [apply land_clear_same|].
  split; [exact Hopen|].
  split; [rewrite Hopen; auto|].
  split; reflexivity.
Qed.

Lemma bind_run {A B} (c : M A) (k : A -> M B) m a m' :
  c m = Some (a, m') -> bind c k m = k a m'.
Proof. intros H. unfold bind. now rewrite H. Qed.

(** C7: accept on a live listener always returns, and never DONE.  When
    the accept call yields a connection and Set_Sock_Options returns TRUE
    on the new handle, the handler returns PEND after creating a new
    request, distinct from the listener and from NULL, that is OPEN and
    CONNECTED, holds the new handle and the listener's device, has its
    remote endpoint from the accept call and its local endpoint from a
    getsockname query on the new handle, which is the last call made; the
    new request is appended to the listener's pending-accept queue, the
    listener is otherwise unchanged, and an accept event is signalled on
    the listener.  When the accept call would block, the handler returns
    PEND, changes no request and signals nothing. *)
Theorem accept_queues_connection req m r :
  heap m !! req = Some r ->
  let c := sys_accept (devreq.socket r) in
  let sa := os (c :: calls m) in
  exists res m',
    Accept_Socket os req m = Some (res, m') /\
    res <> DR_DONE /\
    (ret sa = BAD_SOCKET -> err sa = NE_WOULDBLOCK ->
       res = DR_PEND /\ heap m' = heap m /\ events m' = events m) /\
    (ret sa <> BAD_SOCKET ->
     forall m2,
       Set_Sock_Options os (ret sa)
         (Machine (heap m) (c :: calls m) (events m) (err sa))
       = Some (true, m2) ->
       res = DR_PEND /\
       exists news n,
         heap m !! news = None /\ news <> req /\ news <> 0 /\
         heap m' !! news = Some n /\
         Z.land (devreq.state n) RSM_OPEN <> 0 /\
         Z.land (devreq.state n) RSM_CONNECT <> 0 /\
         devreq.socket n = ret sa /\
         devreq.device n = devreq.device r /\
         devreq.remote_ip n = addr_ip sa /\
         devreq.remote_port n = addr_port sa /\
         calls m' = sys_getsockname (ret sa) :: calls m2 /\
         devreq.local_ip n = addr_ip (os (calls m')) /\
         devreq.local_port n = addr_port (os (calls m')) /\
         heap m' !! req =
           Some (devreq.set_sock (devreq.sock r ++ [news]) r) /\
         (forall p, p <> req -> p <> news -> heap m' !! p = heap m !! p) /\
         events m' = (req, EVT_ACCEPT) :: events m).
Proof.
  intros Hreq c sa. unfold Accept_Socket, Get_Local_IP, Attach_Request.
  destruct (alloc_fresh (heap m)) as [Hnull Hfresh].
  assert (Hne : fresh ({[0]} ∪ dom (heap m) : gset Z) <> req) by congruence.
  repeat mstep. fold c. fold sa.
  destruct (ret sa =? BAD_SOCKET) eqn:Hbad.
  - apply Z.eqb_eq in Hbad. repeat mstep.
    destruct (err sa =? NE_WOULDBLOCK) eqn:Hwb; repeat mstep; done_run;
      eexists _, _; (split; [reflexivity|]); (split; [discriminate|]);
      fields; split; try contradiction.
    + auto.
    + apply Z.eqb_neq in Hwb. intros; contradiction.
  - apply Z.eqb_neq in Hbad.
    destruct (Set_Sock_Options_frame os (ret sa)
                (Machine (heap m) (c :: calls m) (events m) (err sa)))
      as (ok & cs & e & Hs & _ & _).
    rewrite (bind_run _ _ _ _ _ Hs). fields.
    destruct ok; cbn [negb]; repeat mstep; done_run.
    2:{ eexists _, _. split; [reflexivity|]. split; [discriminate|].
        split; [intros; contradiction|]. intros _ m2 Hm2.
        rewrite Hs in Hm2. discriminate. }
    rewrite bind_OS_ALLOC_ZEROFILL; fields.
    set (news := fresh _) in *. repeat mstep. done_run.
    eexists _, _. split; [reflexivity|]. split; [discriminate|].
    split; [intros; contradiction|]. intros _ m2 Hm2.
    rewrite Hs in Hm2. injection Hm2 as <-.
    split; [reflexivity|]. fields. eexists news, _.
    split; [exact Hfresh|]. split; [exact Hne|]. split; [exact Hnull|].
    split; [rewrite lookup_insert_ne by congruence; apply lookup_insert_eq|].
    fields. rewrite Z.lor_0_l.
    split; [rewrite Z.lor_comm; apply land_lor_same, RSM_OPEN_pos|].
    split; [apply land_lor_same, RSM_CONNECT_pos|].
    repeat (split; [reflexivity|]).
    split; [apply lookup_insert_eq|].
    split; [|reflexivity].
    intros p Hp Hq. rewrite lookup_insert_ne by congruence.
    rewrite lookup_insert_ne by congruence. reflexivity.
Qed.



(** One send on a request whose counters are in range, against an OS that
    never reports more bytes sent than it was asked to send. *)
Lemma send_step req m r :
  (forall h fd buf len fl ip port,
     0 <= len -> ret (os (sys_sendto fd buf len fl ip port :: h)) <= len) ->
  heap m !! req = Some r ->
  devreq.command r <> RDC_READ ->
  0 <= devreq.actual r <= devreq.length r ->
  devreq.length r < 2 ^ 32 ->
  exists res m' r',
    Transfer_Socket os req m = Some (res, m') /\
    heap m' !! req = Some r' /\
    devreq.length r' = devreq.length r /\
    devreq.command r' = devreq.command r /\
    devreq.actual r <= devreq.actual r' <= devreq.length r /\
    (res = DR_PEND ->
       (0 <= ret (os (calls m')) /\
        devreq.actual r' = devreq.actual r + ret (os (calls m')) /\
        devreq.actual r' < devreq.length r) \/
       (ret (os (calls m')) < 0 /\
        err (os (calls m')) = NE_WOULDBLOCK /\
        devreq.actual r' = devreq.actual r)) /\
    (devreq.actual r < devreq.length r ->
     devreq.actual r' = devreq.length r ->
       res = DR_DONE /\ events m' = (req, EVT_WROTE) :: events m).
Proof.
  intros Hos Hreq Hcmd Hact Hlen. unfold Transfer_Socket. mstep.
  destruct (decide (devreq.command r = RDC_READ)) as [|_]; [contradiction|].
  assert (Hu : u32 (devreq.length r - devreq.actual r)
               = devreq.length r - devreq.actual r)
    by (unfold u32; apply Z.mod_small; lia).
  msplit; repeat mstep.
  { done_run. eexists _, _, _. split; [reflexivity|]. fields.
    split; [apply lookup_insert_eq|]. fields.
    repeat split; try reflexivity; try lia; try discriminate. }
  rewrite Z.eqb_refl. rewrite Hu. repeat mstep.
  assert (Hmin : 0 <= MIN (devreq.length r - devreq.actual r) MAX_TRANSFER
                 <= devreq.length r - devreq.actual r).
  { pose proof MAX_TRANSFER_pos. unfold MIN.
    destruct (_ <? _) eqn:Hlt; [lia|]. apply Z.ltb_ge in Hlt. lia. }
  match goal with
  | |- context [os (sys_sendto ?fd ?buf ?len ?fl ?ip ?port :: ?h)] =>
      pose proof (Hos h fd buf len fl ip port (proj1 Hmin)) as Hle;
      set (rp := os (sys_sendto fd buf len fl ip port :: h)) in *
  end.
  destruct (0 <=? ret rp) eqn:Hsent.
  - apply Z.leb_le in Hsent. repeat mstep.
    assert (Hsum : u32 (devreq.actual r + ret rp) = devreq.actual r + ret rp)
      by (unfold u32; apply Z.mod_small; lia).
    rewrite Hsum.
    destruct (devreq.length r <=? devreq.actual r + ret rp) eqn:Hfull;
      repeat mstep; done_run;
      [apply Z.leb_le in Hfull | apply Z.leb_gt in Hfull];
      (eexists _, _, _; split; [reflexivity|]; fields;
       split; [apply lookup_insert_eq|]; fields;
       fold rp; rewrite ?Hsum;
       repeat split; try reflexivity; try lia; try discriminate).
  - apply Z.leb_gt in Hsent. repeat mstep.
    destruct (err rp =? NE_WOULDBLOCK) eqn:Hwb; repeat mstep; done_run;
      (eexists _, _, _; split; [reflexivity|]; fields;
       split; [apply lookup_insert_eq|]; fields;
       fold rp;
       repeat split; try reflexivity; try lia; try discriminate).
Qed.

(** The counters stay in range however often the send is re-invoked. *)
Lemma retransfers_send_invariant req m0 r0 m1 :
  (forall h fd buf len fl ip port,
     0 <= len -> ret (os (sys_sendto fd buf len fl ip port :: h)) <= len) ->
  heap m0 !! req = Some r0 ->
  devreq.command r0 <> RDC_READ ->
  0 <= devreq.actual r0 <= devreq.length r0 ->
  devreq.length r0 < 2 ^ 32 ->
  retransfers os req m0 m1 ->
  exists r1,
    heap m1 !! req = Some r1 /\
    devreq.length r1 = devreq.length r0 /\
    devreq.command r1 <> RDC_READ /\
    devreq.actual r0 <= devreq.actual r1 <= devreq.length r0.
Proof.
  intros Hos Hreq Hcmd Hact Hlen Hrun.
  induction Hrun as [m | m ma mb res _ IH Hstep].
  - exists r0. repeat split; auto; lia.
  - destruct (IH Hreq) as (ra & Ha & Hla & Hca & Haa).
    destruct (send_step req ma ra Hos Ha Hca) as
      (res' & m' & r' & Hrun' & Hr' & Hl' & Hc' & Ha' & _); [lia | lia |].
    rewrite Hstep in Hrun'. injection Hrun' as <- <-.
    exists r'. repeat split; try congruence; lia.
Qed.

(** C5, amended: take a request whose counters satisfy
    0 <= actual <= length = L < 2^32 and an OS that never reports more
    bytes sent than it was asked to send.  However often the send has been
    re-invoked, the request is live with length L and actual between its
    first value and L, and the next send returns with actual not
    decreased and not above L.  If that send returns PEND, either the OS
    accepted n >= 0 bytes, actual grew by exactly n and is still below L,
    or the send would block and actual is unchanged.  If that send brings
    actual from below L to L, it returns DONE and signals wrote. *)
Theorem send_progress req m0 r0 m1 :
  (forall h fd buf len fl ip port,
     0 <= len -> ret (os (sys_sendto fd buf len fl ip port :: h)) <= len) ->
  heap m0 !! req = Some r0 ->
  devreq.command r0 <> RDC_READ ->
  0 <= devreq.actual r0 <= devreq.length r0 ->
  devreq.length r0 < 2 ^ 32 ->
  retransfers os req m0 m1 ->
  exists r1 res m2 r2,
    heap m1 !! req = Some r1 /\
    devreq.length r1 = devreq.length r0 /\
    devreq.actual r0 <= devreq.actual r1 <= devreq.length r0 /\
    Transfer_Socket os req m1 = Some (res, m2) /\
    heap m2 !! req = Some r2 /\
    devreq.actual r1 <= devreq.actual r2 <= devreq.length r0 /\
    (res = DR_PEND ->
       (0 <= ret (os (calls m2)) /\
        devreq.actual r2 = devreq.actual r1 + ret (os (calls m2)) /\
        devreq.actual r2 < devreq.length r0) \/
       (ret (os (calls m2)) < 0 /\
        err (os (calls m2)) = NE_WOULDBLOCK /\
        devreq.actual r2 = devreq.actual r1)) /\
    (devreq.actual r1 < devreq.length r0 ->
     devreq.actual r2 = devreq.length r0 ->
       res = DR_DONE /\ events m2 = (req, EVT_WROTE) :: events m1).
Proof.
  intros Hos Hreq Hcmd Hact Hlen Hrun.
  destruct (retransfers_send_invariant req m0 r0 m1 Hos Hreq Hcmd Hact Hlen
              Hrun) as (r1 & H1 & Hl1 & Hc1 & Ha1).
  destruct (send_step req m1 r1 Hos H1 Hc1) as
    (res & m2 & r2 & Hrun2 & H2 & Hl2 & Hc2 & Ha2 & Hpend & Hfull);
    [lia | lia |].
  exists r1, res, m2, r2. rewrite Hl1 in *.
  repeat (split; [first [assumption | lia]|]). assumption.
Qed.

(** What modify does when the option call of a recognized operation on a
    UDP request fails: it reports ERROR and stores the return value of
    setsockopt, whatever the OS error code is. *)
Lemma Modify_Socket_failure frame_ sock m r :
  heap m !! sock = Some r ->
  devreq.command r = RDC_MODIFY ->
  devreq.flags r = 3171 \/ devreq.flags r = 2365 ->
  Z.land (devreq.modes r) RST_UDP <> 0 ->
  let frm := frame_ (devreq.data r) in
  let c :=
    if devreq.flags r =? 3171 then
      sys_setsockopt (devreq.socket r)
        (if ref_drop frm then IP_DROP_MEMBERSHIP else IP_ADD_MEMBERSHIP)
        [arg_group frm; arg_member frm]
    else sys_setsockopt (devreq.socket r) IP_TTL [arg_ttl frm] in
  ret (os (c :: calls m)) < 0 ->
  exists m' r',
    Modify_Socket os frame_ sock m = Some (DR_ERROR, m') /\
    heap m' !! sock = Some r' /\
    devreq.error r' = ret (os (c :: calls m)) /\
    os_error m' = err (os (c :: calls m)).
Proof.
  intros Hreq Hcmd Hop Hudp frm c Hfail. unfold Modify_Socket. mstep.
  destruct (decide (devreq.command r = RDC_MODIFY)); [|contradiction].
  apply Z.eqb_neq in Hudp. apply Z.ltb_lt in Hfail. subst c.
  destruct Hop as [Hop|Hop]; rewrite Hop in *; cbn [Z.eqb Pos.eqb] in *;
    rewrite Hudp; repeat mstep; fold frm; rewrite Hfail; repeat mstep;
    done_run; eexists _, _; (split; [reflexivity|]); fields;
    (split; [apply lookup_insert_eq|]); split; reflexivity.
Qed.

End Claims.

(** ** The claims on explicit inputs *)

(** C9 on a connected client; the stale error code 77 is still there. *)
Lemma connect_when_connected_witness :
  (heap (single connected_client) !! 100 = Some connected_client /\
   Z.land (devreq.modes connected_client) (@RST_LISTEN posix) = 0 /\
   Z.land (devreq.state connected_client) (@RSM_CONNECT posix) <> 0) /\
  Connect_Socket (P:=posix) (scripted []) 100 (single connected_client)
  = Some (DR_DONE, single connected_client).
Proof.
  assert (H1 : heap (single connected_client) !! 100 = Some connected_client)
    by reflexivity.
  assert (H2 : Z.land (devreq.modes connected_client) (@RST_LISTEN posix) = 0)
    by reflexivity.
  assert (H3 : Z.land (devreq.state connected_client) (@RSM_CONNECT posix)
               <> 0) by (vm_compute; lia).
  split; [auto|].
  exact (connect_when_connected (P:=posix) (scripted []) 100 _ _ H1 H2 H3).
Defined.

(** C1 fails on connect: the handler returns DONE and the error slot still
    holds the stale code 77. *)
Lemma connect_keeps_stale_error :
  exists m' r',
    Connect_Socket (P:=posix) (scripted []) 100 (single connected_client)
    = Some (DR_DONE, m') /\
    heap m' !! 100 = Some r' /\
    devreq.error r' = 77 /\ devreq.error r' <> 0.
Proof.
  eexists _, _. split; [vm_compute; reflexivity|].
  split; [vm_compute; reflexivity|]. split; [reflexivity|].
  vm_compute. lia.
Qed.

Lemma error_slot_cleared_by_open_and_close_witness :
  heap (single connected_client) !! 100 = Some connected_client /\
  forall res m',
    Connect_Socket (P:=posix) (scripted []) 100 (single connected_client)
    = Some (res, m') ->
    res <> DR_ERROR ->
    exists r',
      heap m' !! 100 = Some r' /\
      devreq.error r' = devreq.error connected_client.
Proof.
  assert (H1 : heap (single connected_client) !! 100 = Some connected_client)
    by reflexivity.
  split; [exact H1|].
  destruct (error_slot_cleared_by_open_and_close (P:=posix) (scripted [])
              ttl_frame 100 _ _ H1) as [_ Hkeep].
  apply (Hkeep (Connect_Socket (P:=posix) (scripted []))).
  left. reflexivity.
Defined.

(** C2 fails when the socket options cannot be applied: open reports
    ERROR, yet the new handle 7 is stored (the slot held 3) and OPEN is
    set. *)
Lemma open_error_keeps_handle :
  exists m' r',
    Open_Socket (P:=posix)
      (scripted [Reply 7 0 0 0; Reply (-1) 22 0 0]) 100 (single fresh_tcp)
    = Some (DR_ERROR, m') /\
    heap m' !! 100 = Some r' /\
    devreq.socket fresh_tcp = 3 /\
    devreq.socket r' = 7 /\
    Z.land (devreq.state r') (@RSM_OPEN posix) <> 0 /\
    devreq.error r' = 22.
Proof.
  eexists _, _. split; [vm_compute; reflexivity|].
  split; [vm_compute; reflexivity|].
  repeat split; try reflexivity. vm_compute. lia.
Qed.

Lemma open_failure_paths_witness :
  heap (single fresh_tcp) !! 100 = Some fresh_tcp /\
  exists res m' r',
    Open_Socket (P:=posix)
      (scripted [Reply 7 0 0 0; Reply (-1) 22 0 0]) 100 (single fresh_tcp)
    = Some (res, m') /\
    heap m' !! 100 = Some r' /\
    (res = DR_ERROR -> devreq.error r' = os_error m').
Proof.
  assert (H1 : heap (single fresh_tcp) !! 100 = Some fresh_tcp)
    by reflexivity.
  split; [exact H1|].
  destruct (open_failure_paths (P:=posix)
              (scripted [Reply 7 0 0 0; Reply (-1) 22 0 0]) 100 _ _ H1)
    as (res & m' & r' & Hrun & Hr' & Herr & _).
  exists res, m', r'. auto.
Defined.



(** C4 on its failing input: setsockopt fails with OS error 22, modify
    reports ERROR and stores the return value -1 in the error slot. *)
Lemma modify_stores_return_value :
  exists m' r',
    Modify_Socket (P:=posix) (scripted [Reply (-1) 22 0 0]) ttl_frame 100
      (single udp_ttl) = Some (DR_ERROR, m') /\
    heap m' !! 100 = Some r' /\
    os_error m' = 22 /\
    devreq.error r' = -1.
Proof.
  eexists _, _. split; [vm_compute; reflexivity|].
  split; [vm_compute; reflexivity|]. split; reflexivity.
Qed.

(** C5 fails when the send would block: PEND is returned and actual has
    not moved. *)
Lemma send_would_block_keeps_actual :
  exists m' r',
    Transfer_Socket (P:=posix) (scripted [Reply (-1) 11 0 0]) 100
      (single sender) = Some (DR_PEND, m') /\
    heap m' !! 100 = Some r' /\
    devreq.actual r' = devreq.actual sender.
Proof.
  eexists _, _. split; [vm_compute; reflexivity|].
  split; [vm_compute; reflexivity|]. reflexivity.
Qed.

Lemma send_progress_witness :
  ((forall h fd buf len fl ip port,
      0 <= len ->
      ret (chunked 4 (sys_sendto fd buf len fl ip port :: h)) <= len) /\
   heap (single sender) !! 100 = Some sender /\
   devreq.command sender <> RDC_READ /\
   0 <= devreq.actual sender <= devreq.length sender /\
   devreq.length sender < 2 ^ 32) /\
  exists m1 r1 res m2 r2,
    retransfers (P:=posix) (chunked 4) 100 (single sender) m1 /\
    heap m1 !! 100 = Some r1 /\
    Transfer_Socket (P:=posix) (chunked 4) 100 m1 = Some (res, m2) /\
    heap m2 !! 100 = Some r2 /\
    devreq.actual r1 <= devreq.actual r2 <= devreq.length sender.
Proof.
  assert (H0 : forall h fd buf len fl ip port,
            0 <= len ->
            ret (chunked 4 (sys_sendto fd buf len fl ip port :: h)) <= len)
    by (intros; simpl; lia).
  assert (H1 : heap (single sender) !! 100 = Some sender) by reflexivity.
  assert (H2 : devreq.command sender <> RDC_READ) by (simpl; discriminate).
  assert (H3 : 0 <= devreq.actual sender <= devreq.length sender)
    by (simpl; lia).
  assert (H4 : devreq.length sender < 2 ^ 32) by (simpl; lia).
  split; [auto|].
  assert (Hrun : exists m1,
            retransfers (P:=posix) (chunked 4) 100 (single sender) m1).
  { eexists. eapply retransfers_step; [apply retransfers_refl|].
    vm_compute. reflexivity. }
  destruct Hrun as (m1 & Hrun).
  destruct (send_progress (P:=posix) (chunked 4) 100 _ _ m1 H0 H1 H2 H3 H4
              Hrun)
    as (r1 & res & m2 & r2 & Hr1 & _ & _ & Hstep & Hr2 & Hle & _).
  exists m1, r1, res, m2, r2. auto.
Defined.

Lemma receive_zero_is_peer_close_witness :
  (heap (single reader) !! 100 = Some reader /\
   devreq.command reader = RDC_READ /\
   Z.land (devreq.state reader) (@RSM_CONNECT posix) <> 0 /\
   Z.land (devreq.modes reader) (@RST_UDP posix) = 0 /\
   ret (scripted [Reply 0 0 0 0]
          (sys_recvfrom (devreq.socket reader) (devreq.data reader)
             (MIN (u32 (devreq.length reader - devreq.actual reader))
                  (@MAX_TRANSFER posix))
           :: calls (single reader))) = 0) /\
  exists m' r',
    Transfer_Socket (P:=posix) (scripted [Reply 0 0 0 0]) 100 (single reader)
    = Some (DR_DONE, m') /\
    heap m' !! 100 = Some r' /\
    Z.land (devreq.state r') (@RSM_CONNECT posix) = 0 /\
    devreq.actual r' = 0 /\
    events m' = [(100, EVT_CLOSE)].
Proof.
  assert (H1 : heap (single reader) !! 100 = Some reader) by reflexivity.
  assert (H2 : devreq.command reader = RDC_READ) by reflexivity.
  assert (H3 : Z.land (devreq.state reader) (@RSM_CONNECT posix) <> 0)
    by (vm_compute; lia).
  assert (H4 : Z.land (devreq.modes reader) (@RST_UDP posix) = 0)
    by reflexivity.
  assert (H5 : ret (scripted [Reply 0 0 0 0]
          (sys_recvfrom (devreq.socket reader) (devreq.data reader)
             (MIN (u32 (devreq.length reader - devreq.actual reader))
                  (@MAX_TRANSFER posix))
           :: calls (single reader))) = 0) by reflexivity.
  split; [auto 6|].
  destruct (receive_zero_is_peer_close (P:=posix) (scripted [Reply 0 0 0 0])
              100 _ _ H1 H2 H3 H4 H5)
    as (m' & r' & Hrun & Hr' & Hc & _ & _ & Ha & He).
  exists m', r'. auto.
Defined.

Lemma accept_queues_connection_witness :
  heap (single listener) !! 100 = Some listener /\
  exists m' news n,
    Accept_Socket (P:=posix) obliging 100 (single listener)
    = Some (DR_PEND, m') /\
    news <> 100 /\
    heap m' !! news = Some n /\
    devreq.socket n = 7 /\
    devreq.remote_ip n = 9 /\ devreq.remote_port n = 4000 /\
    devreq.local_ip n = 5 /\ devreq.local_port n = 6000 /\
    Z.land (devreq.state n) (@RSM_OPEN posix) <> 0 /\
    Z.land (devreq.state n) (@RSM_CONNECT posix) <> 0 /\
    heap m' !! 100 = Some (devreq.set_sock [news] listener) /\
    events m' = [(100, EVT_ACCEPT)].
Proof.
  assert (H1 : heap (single listener) !! 100 = Some listener) by reflexivity.
  split; [exact H1|].
  assert (Hfd : ret (obliging (sys_accept (devreq.socket listener)
                               :: calls (single listener)))
                <> @BAD_SOCKET posix) by (vm_compute; lia).
  assert (Hopt : {m2 | Set_Sock_Options (P:=posix) obliging 7
                         (Machine (heap (single listener))
                            [sys_accept (devreq.socket listener)] [] 0)
                       = Some (true, m2)})
    by (eexists; vm_compute; reflexivity).
  destruct Hopt as [m2 Hopt].
  destruct (accept_queues_connection (P:=posix) obliging 100 _ _ H1)
    as (res & m' & Hrun & _ & _ & Hok).
  destruct (Hok Hfd m2 Hopt)
    as (-> & news & n & _ & Hne & _ & Hn & Ho & Hc & Hs & _ & Hri & Hrp
        & Hcalls & Hli & Hlp & Hq & _ & Hev).
  exists m', news, n.
  rewrite Hcalls in Hli, Hlp.
  repeat (split; [assumption|]). exact Hev.
Defined.



Lemma lookup_leaves_dns_abort_unreachable_witness :
  heap (single connected_client) !! 100 = Some connected_client /\
  exists res m1 r1,
    Lookup_Socket (P:=posix) (scripted [Reply 1 0 9 0]) 100
      (single connected_client) = Some (res, m1) /\
    heap m1 !! 100 = Some r1 /\
    devreq.host_info r1 = 0.
Proof.
  assert (H1 : heap (single connected_client) !! 100 = Some connected_client)
    by reflexivity.
  split; [exact H1|].
  destruct (lookup_leaves_dns_abort_unreachable (P:=posix)
              (scripted [Reply 1 0 9 0]) ttl_frame 100 _ _ H1)
    as (res & m1 & r1 & Hrun & Hr1 & Hnull & _).
  exists res, m1, r1. auto.
Defined.

(** ** Further properties of the handlers *)

Ltac outcome :=
  repeat split; intros; try discriminate; try contradiction;
  try reflexivity; try congruence; try lia.

Section Extras.
Context {P : Platform}.
Variable os : OS.

(** X1: a successful open leaves exactly the OPEN flag in the state (stale
    flags such as CONNECT are gone), a zero error slot, and the handle the
    OS gave for a datagram socket in UDP mode and a stream socket
    otherwise; nothing else of the request changes. *)
Theorem open_success_state req m r m' :
  heap m !! req = Some r ->
  Open_Socket os req m = Some (DR_DONE, m') ->
  let udp := negb (Z.land (devreq.modes r) RST_UDP =? 0) in
  let fd :=
    ret (os (sys_socket (if udp then SOCK_DGRAM else SOCK_STREAM)
                        (if udp then IPPROTO_UDP else IPPROTO_TCP)
             :: calls m)) in
  fd <> BAD_SOCKET /\
  heap m' !! req =
    Some (devreq.set_state RSM_OPEN
            (devreq.set_socket fd (devreq.set_error 0 r))) /\
  events m' = events m.
Proof.
  intros Hreq Hrun udp fd. revert Hrun. unfold Open_Socket. repeat mstep.
  fold udp. fold fd. destruct (fd =? BAD_SOCKET) eqn:Hbad.
  { repeat mstep. done_run. discriminate. }
  apply Z.eqb_neq in Hbad. repeat mstep. mopts.
  destruct ok; cbn [negb]; repeat mstep; done_run; [|discriminate].
  intros E. injection E as <-. fields.
  split; [assumption|]. split; [|reflexivity].
  rewrite lookup_insert_eq. rewrite Z.lor_0_l. reflexivity.
Qed.

(** X2: open followed by close leaks no handle.  Whatever open reports on
    a request without DNS scratch memory, the close that follows asks the
    OS for nothing when no socket had been created, and for exactly the
    release of the created handle otherwise (also when open failed while
    applying the socket options). *)
Theorem open_then_close_releases req m r res m1 :
  heap m !! req = Some r ->
  devreq.host_info r = 0 ->
  Open_Socket os req m = Some (res, m1) ->
  let udp := negb (Z.land (devreq.modes r) RST_UDP =? 0) in
  let fd :=
    ret (os (sys_socket (if udp then SOCK_DGRAM else SOCK_STREAM)
                        (if udp then IPPROTO_UDP else IPPROTO_TCP)
             :: calls m)) in
  exists res2 m2 r2,
    Close_Socket os req m1 = Some (res2, m2) /\
    heap m2 !! req = Some r2 /\
    devreq.state r2 = 0 /\
    (fd = BAD_SOCKET -> calls m2 = calls m1 /\ res2 = DR_DONE) /\
    (fd <> BAD_SOCKET -> calls m2 = sys_close fd :: calls m1).
Proof.
  intros Hreq Hnull Hrun udp fd. revert Hrun. unfold Open_Socket.
  repeat mstep. fold udp. fold fd. destruct (fd =? BAD_SOCKET) eqn:Hbad.
  - apply Z.eqb_eq in Hbad. repeat mstep. done_run.
    intros E. injection E as <- <-. unfold Close_Socket. repeat mstep.
    rewrite Z.land_0_l. cbn [Z.eqb negb]. done_run.
    eexists _, _, _. split; [reflexivity|]. fields.
    split; [apply lookup_insert_eq|]. outcome.
  - apply Z.eqb_neq in Hbad. repeat mstep. mopts.
    assert (Hopen : (Z.land (Z.lor 0 RSM_OPEN) RSM_OPEN =? 0) = false).
    { apply Z.eqb_neq. apply land_lor_same, RSM_OPEN_pos. }
    destruct ok; cbn [negb]; repeat mstep; done_run;
      intros E; injection E as <- <-; unfold Close_Socket; repeat mstep;
      rewrite Hopen; cbn [negb]; repeat mstep; rewrite Hnull;
      cbn [Z.eqb negb]; repeat mstep; msplit; repeat mstep; done_run;
      (eexists _, _, _; split; [reflexivity|]; fields;
       split; [apply lookup_insert_eq|]; outcome).
Qed.

(** X3: close on an OPEN request without DNS scratch memory issues exactly
    one call, the release of the handle in the socket slot, and clears
    every state flag whether or not the OS accepts the release.  It
    returns DONE (error slot zero) when the OS answers zero and ERROR with
    the OS error code otherwise; it never returns PEND and signals
    nothing. *)
Theorem close_open_request req m r :
  heap m !! req = Some r ->
  Z.land (devreq.state r) RSM_OPEN <> 0 ->
  devreq.host_info r = 0 ->
  let rp := os (sys_close (devreq.socket r) :: calls m) in
  exists res m',
    Close_Socket os req m = Some (res, m') /\
    calls m' = sys_close (devreq.socket r) :: calls m /\
    events m' = events m /\
    heap m' !! req =
      Some (devreq.set_error (if ret rp =? 0 then 0 else err rp)
              (devreq.set_state 0 r)) /\
    res = (if ret rp =? 0 then DR_DONE else DR_ERROR).
Proof.
  intros Hreq Hopen Hnull rp. unfold Close_Socket. repeat mstep.
  apply Z.eqb_neq in Hopen. rewrite Hopen. cbn [negb]. repeat mstep.
  rewrite Hnull. cbn [Z.eqb negb]. repeat mstep. fold rp.
  destruct (ret rp =? 0); cbn [negb]; repeat mstep; done_run;
    eexists _, _; (split; [reflexivity|]); fields;
    rewrite lookup_insert_eq; outcome.
Qed.

(** X4: close on an OPEN request with DNS scratch memory (a lookup phase
    is pending) first frees the scratch block, then puts the value parked
    in the length field back into the socket slot and releases that
    handle, not the one the slot held; the state flags are cleared and
    the scratch pointer is left as it was. *)
Theorem close_aborts_dns_phase req m r :
  heap m !! req = Some r ->
  Z.land (devreq.state r) RSM_OPEN <> 0 ->
  devreq.host_info r <> 0 ->
  exists res m' r',
    Close_Socket os req m = Some (res, m') /\
    calls m' =
      sys_close (devreq.length r) :: sys_free (devreq.host_info r)
      :: calls m /\
    heap m' !! req = Some r' /\
    devreq.socket r' = devreq.length r /\
    devreq.state r' = 0 /\
    devreq.host_info r' = devreq.host_info r /\
    (res = DR_DONE <-> ret (os (calls m')) = 0) /\
    (res = DR_ERROR <-> ret (os (calls m')) <> 0).
Proof.
  intros Hreq Hopen Hinfo. unfold Close_Socket. repeat mstep.
  apply Z.eqb_neq in Hopen. rewrite Hopen. cbn [negb]. repeat mstep.
  apply Z.eqb_neq in Hinfo. rewrite Hinfo. cbn [negb]. repeat mstep.
  msplit; repeat mstep; done_run;
    eexists _, _, _; (split; [reflexivity|]); fields;
    (split; [reflexivity|]); (split; [apply lookup_insert_eq|]); fields;
    outcome.
Qed.

Lemma ATTEMPT_CONNECT_disjoint : Z.land RSM_ATTEMPT RSM_CONNECT = 0.
Proof. flag_laws. assumption. Qed.

Lemma RSM_ATTEMPT_pos : 0 < RSM_ATTEMPT.
Proof. flag_laws. assumption. Qed.



Lemma BIND_LISTEN_disjoint : Z.land RSM_BIND RSM_LISTEN = 0.
Proof. flag_laws. assumption. Qed.

(** X5: the result of connect on a request that is not a listener tells
    the state it leaves.  DONE: CONNECT is set.  PEND: ATTEMPT is set,
    CONNECT is clear and no event is signalled.  ERROR: ATTEMPT and
    CONNECT are clear, the error slot holds the OS error code and no event
    is signalled. *)
Theorem connect_result_matches_state req m r :
  heap m !! req = Some r ->
  Z.land (devreq.modes r) RST_LISTEN = 0 ->
  exists res m' r',
    Connect_Socket os req m = Some (res, m') /\
    heap m' !! req = Some r' /\
    (res = DR_DONE -> Z.land (devreq.state r') RSM_CONNECT <> 0) /\
    (res = DR_PEND ->
       Z.land (devreq.state r') RSM_ATTEMPT <> 0 /\
       Z.land (devreq.state r') RSM_CONNECT = 0 /\
       events m' = events m) /\
    (res = DR_ERROR ->
       Z.land (devreq.state r') RSM_ATTEMPT = 0 /\
       Z.land (devreq.state r') RSM_CONNECT = 0 /\
       devreq.error r' = os_error m' /\
       events m' = events m).
Proof.
  intros Hreq Hl. unfold Connect_Socket, Get_Local_IP. mstep.
  rewrite Hl. cbn [Z.eqb negb].
  pose proof ATTEMPT_CONNECT_disjoint as AC.
  pose proof RSM_ATTEMPT_pos as Apos. pose proof RSM_CONNECT_pos as Cpos.
  destruct (Z.land (devreq.state r) RSM_CONNECT =? 0) eqn:Hc; cbn [negb].
  2:{ done_run. apply Z.eqb_neq in Hc. exists DR_DONE, m, r. outcome. }
  apply Z.eqb_eq in Hc.
  mrun; done_run;
    (eexists _, _, _; split; [reflexivity|]; fields;
     split; [apply lookup_insert_eq|]; fields; outcome);
    try (apply land_lor_same; assumption);
    try apply land_clear_same;
    try (rewrite land_lor_other by assumption; assumption);
    try (rewrite land_clear_other by assumption; assumption).
Qed.

(** X6: connect on a UDP request that is not yet connected cannot fail
    and reaches no peer: the only call is the query of the local endpoint
    on the request's handle, the result is DONE, CONNECT is set, ATTEMPT
    is cleared, the local endpoint is what the query answered and one
    connect event is signalled on the request. *)
Theorem connect_udp_is_local req m r :
  heap m !! req = Some r ->
  Z.land (devreq.modes r) RST_LISTEN = 0 ->
  Z.land (devreq.state r) RSM_CONNECT = 0 ->
  Z.land (devreq.modes r) RST_UDP <> 0 ->
  let sa := os (sys_getsockname (devreq.socket r) :: calls m) in
  Connect_Socket os req m =
  Some (DR_DONE,
        Machine
          (<[req := devreq.set_local (addr_ip sa) (addr_port sa)
                      (devreq.set_state
                         (Z.lor (Z.land (devreq.state r)
                                        (Z.lnot RSM_ATTEMPT))
                                RSM_CONNECT) r)]> (heap m))
          (sys_getsockname (devreq.socket r) :: calls m)
          ((req, EVT_CONNECT) :: events m)
          (err sa)).
Proof.
  intros Hreq Hl Hc Hudp sa. unfold Connect_Socket, Get_Local_IP. mstep.
  rewrite Hl, Hc. cbn [Z.eqb negb].
  apply Z.eqb_neq in Hudp. rewrite Hudp. cbn [negb].
  repeat mstep. done_run. reflexivity.
Qed.

(** X7: connect on a TCP request that is not yet connected issues exactly
    one connect call, to the remote endpoint of the request with the port
    cut to 16 bits.  With [code] the outcome of that call (zero, or the OS
    error code when the call did not return zero), the result is DONE
    exactly when [code] is zero or "is connected"; only then is the local
    endpoint queried and a connect event signalled.  Any code that is
    neither that nor one of the "still trying" codes gives ERROR with the
    code in the error slot. *)
Theorem connect_tcp_outcome req m r :
  heap m !! req = Some r ->
  Z.land (devreq.modes r) RST_LISTEN = 0 ->
  Z.land (devreq.state r) RSM_CONNECT = 0 ->
  Z.land (devreq.modes r) RST_UDP = 0 ->
  let c := sys_connect (devreq.socket r) (devreq.remote_ip r)
             (devreq.remote_port r mod 2 ^ 16) in
  let rp := os (c :: calls m) in
  let code := if ret rp =? 0 then 0 else err rp in
  exists res m' r',
    Connect_Socket os req m = Some (res, m') /\
    heap m' !! req = Some r' /\
    (res = DR_DONE <-> code = 0 \/ code = NE_ISCONN) /\
    (res = DR_DONE ->
       calls m' = sys_getsockname (devreq.socket r) :: c :: calls m /\
       events m' = (req, EVT_CONNECT) :: events m /\
       devreq.local_ip r' = addr_ip (os (calls m')) /\
       devreq.local_port r' = addr_port (os (calls m'))) /\
    (res <> DR_DONE ->
       calls m' = c :: calls m /\ events m' = events m /\
       devreq.local_ip r' = devreq.local_ip r /\
       devreq.local_port r' = devreq.local_port r) /\
    (res = DR_ERROR -> devreq.error r' = code) /\
    (res = DR_PEND -> devreq.error r' = devreq.error r).
Proof.
  intros Hreq Hl Hc Htcp c rp code. unfold Connect_Socket, Get_Local_IP.
  mstep. rewrite Hl, Hc, Htcp. cbn [Z.eqb negb]. repeat mstep.
  fold c. fold rp.
  subst code.
  destruct (ret rp =? 0) eqn:Hz; cbn [negb orb]; cbv iota.
  - done_run. eexists _, _, _. split; [reflexivity|]. fields.
    split; [apply lookup_insert_eq|]. fields. outcome.
  - destruct ((err rp =? 0) || (err rp =? NE_ISCONN)) eqn:Hdone.
    + done_run. eexists _, _, _. split; [reflexivity|]. fields.
      split; [apply lookup_insert_eq|]. fields.
      apply orb_true_iff in Hdone. rewrite !Z.eqb_eq in Hdone. outcome.
    + apply orb_false_iff in Hdone. rewrite !Z.eqb_neq in Hdone.
      msplit; done_run;
        (eexists _, _, _; split; [reflexivity|]; fields;
         split; [apply lookup_insert_eq|]; fields; outcome; tauto).
Qed.

Ltac give_calls :=
  first
  [ exists (@nil syscall); split; [reflexivity|]
  | eexists [_]; split; [reflexivity|]
  | eexists [_; _]; split; [reflexivity|]
  | eexists [_; _; _]; split; [reflexivity|]
  | eexists [_; _; _; _]; split; [reflexivity|] ].


Lemma CONNECT_BIND_disjoint : Z.land RSM_BIND RSM_CONNECT = 0.
Proof. flag_laws. rewrite Z.land_comm. assumption. Qed.

Lemma CONNECT_LISTEN_disjoint : Z.land RSM_LISTEN RSM_CONNECT = 0.
Proof. flag_laws. rewrite Z.land_comm. assumption. Qed.

(** X9: listen on a UDP request never asks the OS to listen and never
    changes the LISTEN flag; it returns PEND exactly when both setting the
    address-reuse option and the bind were accepted by the OS. *)
Theorem listen_udp_never_listens req m r :
  heap m !! req = Some r ->
  devreq.sock r = [] ->
  Z.land (devreq.modes r) RST_UDP <> 0 ->
  let c1 := sys_setsockopt (devreq.socket r) SO_REUSEADDR [1] in
  let c2 := sys_bind (devreq.socket r) INADDR_ANY
              (devreq.local_port r mod 2 ^ 16) in
  exists res m' r',
    Listen_Socket os req m = Some (res, m') /\
    heap m' !! req = Some r' /\
    (exists new,
       calls m' = new ++ calls m /\
       forallb (fun c => negb (is_listen c)) new = true) /\
    Z.land (devreq.state r') RSM_LISTEN = Z.land (devreq.state r) RSM_LISTEN /\
    (res = DR_PEND <->
       ret (os (c1 :: calls m)) = 0 /\
       ret (os (c2 :: c1 :: calls m)) = 0).
Proof.
  intros Hreq Hq Hudp c1 c2. unfold Listen_Socket, Get_Local_IP. mstep.
  rewrite Hq. pose proof BIND_LISTEN_disjoint as BL.
  apply Z.eqb_neq in Hudp. repeat mstep. fold c1. fold c2.
  destruct (ret (os (c1 :: calls m)) =? 0) eqn:H1; cbn [negb];
    [destruct (ret (os (c2 :: c1 :: calls m)) =? 0) eqn:H2; cbn [negb]|];
    rewrite ?Hudp; done_run;
    (eexists _, _, _; split; [reflexivity|]; fields;
     split; [apply lookup_insert_eq|]; fields;
     split; [give_calls; reflexivity|];
     split; [rewrite ?land_lor_other by assumption; reflexivity|];
     outcome).
Qed.

(** X10: connect on a request in listener mode does what listen does.  It
    does not return when the accept queue is not empty (the assertion of
    listen).  Otherwise it never returns DONE, never issues a connect
    call, leaves the CONNECT flag as it was and signals nothing. *)
Theorem connect_on_listener req m r :
  heap m !! req = Some r ->
  Z.land (devreq.modes r) RST_LISTEN <> 0 ->
  (devreq.sock r <> [] -> Connect_Socket os req m = None) /\
  (devreq.sock r = [] ->
   exists res m' r',
     Connect_Socket os req m = Some (res, m') /\
     heap m' !! req = Some r' /\
     (exists new,
        calls m' = new ++ calls m /\
        forallb (fun c => negb (is_connect c)) new = true) /\
     res <> DR_DONE /\
     Z.land (devreq.state r') RSM_CONNECT
     = Z.land (devreq.state r) RSM_CONNECT /\
     events m' = events m).
Proof.
  intros Hreq Hl. unfold Connect_Socket. mstep.
  apply Z.eqb_neq in Hl. rewrite Hl. cbn [negb].
  unfold Listen_Socket, Get_Local_IP. mstep.
  pose proof CONNECT_BIND_disjoint as CB.
  pose proof CONNECT_LISTEN_disjoint as CL.
  split; intros Hq.
  - destruct (devreq.sock r); [contradiction|reflexivity].
  - rewrite Hq. mrun; done_run;
      (eexists _, _, _; split; [reflexivity|]; fields;
       split; [apply lookup_insert_eq|]; fields;
       split; [give_calls; reflexivity|];
       split; [discriminate|];
       split; [rewrite ?land_lor_other by assumption; reflexivity|];
       reflexivity).
Qed.

(** X11: a transfer on a request that is neither connected nor UDP is
    refused before anything happens: the result is ERROR, the error slot
    holds the fixed code -18, no call reaches the OS, no state flag is
    set and nothing is signalled. *)
Theorem transfer_requires_connection req m r :
  heap m !! req = Some r ->
  Z.land (devreq.state r) RSM_CONNECT = 0 ->
  Z.land (devreq.modes r) RST_UDP = 0 ->
  Transfer_Socket os req m =
  Some (DR_ERROR,
        Machine (<[req := devreq.set_error (-18) r]> (heap m))
                (calls m) (events m) (os_error m)).
Proof.
  intros Hreq Hc Hudp. unfold Transfer_Socket. mstep.
  rewrite Hc, Hudp. cbn [Z.eqb andb]. repeat mstep. reflexivity.
Qed.

(** X12: a transfer on a request whose counters are in range
    (0 <= actual <= length < 2^32) issues at most one call; that call is a
    send or a receive on the request's handle, for a byte count that is
    not negative, at most MAX_TRANSFER and at most length - actual. *)
Theorem transfer_respects_cap req m r :
  heap m !! req = Some r ->
  0 <= devreq.actual r <= devreq.length r ->
  devreq.length r < 2 ^ 32 ->
  exists res m',
    Transfer_Socket os req m = Some (res, m') /\
    (calls m' = calls m \/
     exists c len,
       calls m' = c :: calls m /\
       transfer_len c = Some len /\
       call_fd c = Some (devreq.socket r) /\
       0 <= len <= MAX_TRANSFER /\
       len <= devreq.length r - devreq.actual r).
Proof.
  intros Hreq Hact Hlen. unfold Transfer_Socket. mstep.
  assert (Hu : u32 (devreq.length r - devreq.actual r)
               = devreq.length r - devreq.actual r)
    by (unfold u32; apply Z.mod_small; lia).
  assert (Hmin : 0 <= MIN (devreq.length r - devreq.actual r) MAX_TRANSFER
                 <= MAX_TRANSFER /\
                 MIN (devreq.length r - devreq.actual r) MAX_TRANSFER
                 <= devreq.length r - devreq.actual r).
  { pose proof MAX_TRANSFER_pos. unfold MIN.
    destruct (_ <? _) eqn:Hlt; [apply Z.ltb_lt in Hlt|apply Z.ltb_ge in Hlt];
      lia. }
  msplit; repeat mstep.
  { done_run. eexists _, _. split; [reflexivity|]. left. reflexivity. }
  rewrite Hu.
  mrun; done_run;
    (eexists _, _; split; [reflexivity|]; fields; right;
     eexists _, _; split; [reflexivity|]; cbn [transfer_len call_fd];
     split; [reflexivity|]; split; [reflexivity|]; tauto).
Qed.

(** X13: a receive that reads n > 0 bytes returns DONE, sets actual to n
    whatever it held before (receives do not accumulate), leaves the
    buffer cursor and the CONNECT flag alone and signals a read event.  On
    a UDP request the remote endpoint becomes the sender's address and
    port; on a TCP request it is unchanged. *)
Theorem receive_data req m r :
  heap m !! req = Some r ->
  devreq.command r = RDC_READ ->
  Z.land (devreq.state r) RSM_CONNECT <> 0 \/
  Z.land (devreq.modes r) RST_UDP <> 0 ->
  let rp :=
    os (sys_recvfrom (devreq.socket r) (devreq.data r)
          (MIN (u32 (devreq.length r - devreq.actual r)) MAX_TRANSFER)
        :: calls m) in
  0 < ret rp ->
  exists m' r',
    Transfer_Socket os req m = Some (DR_DONE, m') /\
    heap m' !! req = Some r' /\
    devreq.actual r' = ret rp /\
    devreq.data r' = devreq.data r /\
    Z.land (devreq.state r') RSM_CONNECT
    = Z.land (devreq.state r) RSM_CONNECT /\
    events m' = (req, EVT_READ) :: events m /\
    (Z.land (devreq.modes r) RST_UDP <> 0 ->
     devreq.remote_ip r' = addr_ip rp /\
     devreq.remote_port r' = addr_port rp) /\
    (Z.land (devreq.modes r) RST_UDP = 0 ->
     devreq.remote_ip r' = devreq.remote_ip r /\
     devreq.remote_port r' = devreq.remote_port r).
Proof.
  intros Hreq Hcmd Hpre rp Hpos. unfold Transfer_Socket. mstep.
  rewrite Hcmd. destruct (decide (RDC_READ = RDC_READ)); [|congruence].
  assert (Hok : (Z.land (devreq.state r) RSM_CONNECT =? 0)
                && (Z.land (devreq.modes r) RST_UDP =? 0) = false).
  { apply andb_false_iff. rewrite !Z.eqb_neq. exact Hpre. }
  rewrite Hok. repeat mstep. rewrite RECEIVE_not_SEND. repeat mstep.
  fold rp. apply Z.ltb_lt in Hpos. rewrite Hpos.
  assert (RC : Z.land RSM_RECEIVE RSM_CONNECT = 0)
    by (rewrite Z.land_comm; apply RECEIVE_CONNECT_disjoint).
  destruct (Z.land (devreq.modes r) RST_UDP =? 0) eqn:Hudp; cbn [negb];
    repeat mstep; done_run;
    (eexists _, _; split; [reflexivity|]; fields;
     split; [apply lookup_insert_eq|]; fields;
     rewrite land_lor_other by assumption; outcome).
Qed.

(** X14: a transfer signals exactly when it completes.  If it returns
    DONE, exactly one event was signalled, on the request itself: wrote
    for a write, read or close for a read.  If it returns PEND or ERROR,
    nothing was signalled. *)
Theorem transfer_signals_iff_done req m r :
  heap m !! req = Some r ->
  exists res m',
    Transfer_Socket os req m = Some (res, m') /\
    (res = DR_DONE ->
       exists e,
         events m' = (req, e) :: events m /\
         (devreq.command r <> RDC_READ -> e = EVT_WROTE) /\
         (devreq.command r = RDC_READ -> e = EVT_READ \/ e = EVT_CLOSE)) /\
    (res <> DR_DONE -> events m' = events m).
Proof.
  intros Hreq. unfold Transfer_Socket. mstep.
  pose proof RECEIVE_not_SEND as RS.
  destruct (decide (devreq.command r = RDC_READ)) as [Hc|Hc];
    mrun; done_run;
    try (rewrite Z.eqb_refl in *; discriminate);
    try congruence;
    (eexists _, _; split; [reflexivity|]; fields; split;
     [ intros Hd;
       first [ discriminate Hd
             | eexists; split; [reflexivity|]; split; intros;
               first [reflexivity | contradiction | tauto] ]
     | intros Hn;
       first [ reflexivity | exfalso; apply Hn; reflexivity ] ]).
Qed.

(** X15: when a transfer returns ERROR, the error slot holds either the
    fixed code -18 (no call was made) or the OS error code of a call that
    returned a negative value, and that code is not "would block"; the
    counters and the buffer cursor are as before. *)
Theorem transfer_error_code req m r :
  heap m !! req = Some r ->
  exists res m' r',
    Transfer_Socket os req m = Some (res, m') /\
    heap m' !! req = Some r' /\
    (res = DR_ERROR ->
       ((devreq.error r' = -18 /\ calls m' = calls m) \/
        (devreq.error r' = os_error m' /\
         os_error m' <> NE_WOULDBLOCK /\
         os_error m' = err (os (calls m')) /\
         ret (os (calls m')) < 0)) /\
       devreq.actual r' = devreq.actual r /\
       devreq.length r' = devreq.length r /\
       devreq.data r' = devreq.data r).
Proof.
  intros Hreq. unfold Transfer_Socket. mstep.
  mrun; done_run;
    (eexists _, _, _; split; [reflexivity|]; fields;
     split; [first [apply lookup_insert_eq | eassumption]|]; fields;
     intros Hres;
     first
     [ discriminate Hres
     | split; [|repeat split; reflexivity];
       first [ left; split; reflexivity
             | right; repeat split; try reflexivity; lia ] ]).
Qed.

(** One send moves the buffer cursor as far as it moves actual. *)
Lemma send_step_cursor req m r :
  (forall h fd buf len fl ip port,
     0 <= len -> ret (os (sys_sendto fd buf len fl ip port :: h)) <= len) ->
  heap m !! req = Some r ->
  devreq.command r <> RDC_READ ->
  0 <= devreq.actual r <= devreq.length r ->
  devreq.length r < 2 ^ 32 ->
  exists res m' r',
    Transfer_Socket os req m = Some (res, m') /\
    heap m' !! req = Some r' /\
    devreq.length r' = devreq.length r /\
    devreq.command r' = devreq.command r /\
    devreq.actual r <= devreq.actual r' <= devreq.length r /\
    devreq.data r' - devreq.actual r' = devreq.data r - devreq.actual r.
Proof.
  intros Hos Hreq Hcmd Hact Hlen. unfold Transfer_Socket. mstep.
  destruct (decide (devreq.command r = RDC_READ)) as [|_]; [contradiction|].
  assert (Hu : u32 (devreq.length r - devreq.actual r)
               = devreq.length r - devreq.actual r)
    by (unfold u32; apply Z.mod_small; lia).
  msplit; repeat mstep.
  { done_run. eexists _, _, _. split; [reflexivity|]. fields.
    split; [apply lookup_insert_eq|]. fields. outcome. }
  rewrite Z.eqb_refl. rewrite Hu. repeat mstep.
  assert (Hmin : 0 <= MIN (devreq.length r - devreq.actual r) MAX_TRANSFER
                 <= devreq.length r - devreq.actual r).
  { pose proof MAX_TRANSFER_pos. unfold MIN.
    destruct (_ <? _) eqn:Hlt; [lia|]. apply Z.ltb_ge in Hlt. lia. }
  match goal with
  | |- context [os (sys_sendto ?fd ?buf ?len ?fl ?ip ?port :: ?h)] =>
      pose proof (Hos h fd buf len fl ip port (proj1 Hmin)) as Hle;
      set (rp := os (sys_sendto fd buf len fl ip port :: h)) in *
  end.
  destruct (0 <=? ret rp) eqn:Hsent.
  - apply Z.leb_le in Hsent. repeat mstep.
    assert (Hsum : u32 (devreq.actual r + ret rp) = devreq.actual r + ret rp)
      by (unfold u32; apply Z.mod_small; lia).
    rewrite Hsum.
    msplit; repeat mstep; done_run;
      (eexists _, _, _; split; [reflexivity|]; fields;
       split; [apply lookup_insert_eq|]; fields; rewrite ?Hsum; outcome).
  - repeat mstep. msplit; repeat mstep; done_run;
      (eexists _, _, _; split; [reflexivity|]; fields;
       split; [apply lookup_insert_eq|]; fields; outcome).
Qed.

(** X16: while a send is re-invoked on a request whose counters are in
    range, against an OS that never reports more bytes sent than asked,
    the buffer cursor and actual advance together: the cursor always
    points [actual] bytes past where it pointed when actual was zero, and
    the length is never changed. *)
Theorem send_cursor_tracks_actual req m0 r0 m1 :
  (forall h fd buf len fl ip port,
     0 <= len -> ret (os (sys_sendto fd buf len fl ip port :: h)) <= len) ->
  heap m0 !! req = Some r0 ->
  devreq.command r0 <> RDC_READ ->
  0 <= devreq.actual r0 <= devreq.length r0 ->
  devreq.length r0 < 2 ^ 32 ->
  retransfers os req m0 m1 ->
  exists r1,
    heap m1 !! req = Some r1 /\
    devreq.length r1 = devreq.length r0 /\
    devreq.data r1 - devreq.actual r1 = devreq.data r0 - devreq.actual r0.
Proof.
  intros Hos Hreq Hcmd Hact Hlen Hrun.
  assert (Inv : exists r1,
    heap m1 !! req = Some r1 /\
    devreq.length r1 = devreq.length r0 /\
    devreq.command r1 <> RDC_READ /\
    devreq.actual r0 <= devreq.actual r1 <= devreq.length r0 /\
    devreq.data r1 - devreq.actual r1 = devreq.data r0 - devreq.actual r0).
  { induction Hrun as [m | m ma mb res _ IH Hstep].
    - exists r0. repeat split; auto; lia.
    - destruct (IH Hreq) as (ra & Ha & Hla & Hca & Haa & Hda).
      destruct (send_step_cursor req ma ra Hos Ha Hca) as
        (res' & m' & r' & Hrun' & Hr' & Hl' & Hc' & Ha' & Hd');
        [lia | lia |].
      rewrite Hstep in Hrun'. injection Hrun' as <- <-.
      exists r'. repeat split; try congruence; lia. }
  destruct Inv as (r1 & H1 & Hl & _ & _ & Hd). exists r1. auto.
Qed.

(** X17: lookup makes exactly one call, the resolution of the name the
    buffer cursor points to, and never returns PEND.  It returns DONE
    exactly when the resolver yields a host: the remote address becomes
    the resolved one, the DONE request flag is cleared, a lookup event is
    signalled and the error slot is untouched.  Otherwise it returns ERROR
    with the OS error code, signals nothing and leaves the remote address
    and the request flags as they were.  The remote port is never
    touched. *)
Theorem lookup_outcome req m r :
  heap m !! req = Some r ->
  let c := sys_gethostbyname (devreq.data r) in
  let host := os (c :: calls m) in
  exists res m' r',
    Lookup_Socket os req m = Some (res, m') /\
    heap m' !! req = Some r' /\
    calls m' = c :: calls m /\
    res <> DR_PEND /\
    devreq.remote_port r' = devreq.remote_port r /\
    (res = DR_DONE <-> ret host <> 0) /\
    (res = DR_DONE ->
       devreq.remote_ip r' = addr_ip host /\
       Z.land (devreq.flags r') RRF_DONE = 0 /\
       devreq.error r' = devreq.error r /\
       events m' = (req, EVT_LOOKUP) :: events m) /\
    (res = DR_ERROR ->
       devreq.error r' = err host /\
       devreq.remote_ip r' = devreq.remote_ip r /\
       devreq.flags r' = devreq.flags r /\
       events m' = events m).
Proof.
  intros Hreq c host. unfold Lookup_Socket. repeat mstep. fold c. fold host.
  destruct (ret host =? 0) eqn:Hz; cbn [negb]; repeat mstep; done_run;
    (eexists _, _, _; split; [reflexivity|]; fields;
     split; [apply lookup_insert_eq|]; fields; outcome).
  apply land_clear_same.
Qed.

(** X18: a recognized modify operation (multicast membership or TTL) on a
    request that is not UDP is refused before any call to the OS: ERROR,
    with the fixed code -18 in the error slot and nothing else changed. *)
Theorem modify_requires_udp frame_ req m r :
  heap m !! req = Some r ->
  devreq.command r = RDC_MODIFY ->
  devreq.flags r = 3171 \/ devreq.flags r = 2365 ->
  Z.land (devreq.modes r) RST_UDP = 0 ->
  Modify_Socket os frame_ req m =
  Some (DR_ERROR,
        Machine (<[req := devreq.set_error (-18) r]> (heap m))
                (calls m) (events m) (os_error m)).
Proof.
  intros Hreq Hcmd Hop Hudp. unfold Modify_Socket. mstep.
  destruct (decide (devreq.command r = RDC_MODIFY)); [|contradiction].
  destruct Hop as [Hop|Hop]; rewrite Hop; cbn [Z.eqb Pos.eqb];
    rewrite Hudp; cbn [Z.eqb]; repeat mstep; reflexivity.
Qed.

(** X19: a recognized modify operation on a UDP request whose option call
    is accepted by the OS returns DONE and changes no request at all; the
    one call it makes is a setsockopt on the request's handle: dropping
    or adding the membership of (group, member) according to the drop
    refinement, or setting the TTL. *)
Theorem modify_success frame_ req m r :
  heap m !! req = Some r ->
  devreq.command r = RDC_MODIFY ->
  devreq.flags r = 3171 \/ devreq.flags r = 2365 ->
  Z.land (devreq.modes r) RST_UDP <> 0 ->
  let frm := frame_ (devreq.data r) in
  let c :=
    if devreq.flags r =? 3171 then
      sys_setsockopt (devreq.socket r)
        (if ref_drop frm then IP_DROP_MEMBERSHIP else IP_ADD_MEMBERSHIP)
        [arg_group frm; arg_member frm]
    else sys_setsockopt (devreq.socket r) IP_TTL [arg_ttl frm] in
  0 <= ret (os (c :: calls m)) ->
  Modify_Socket os frame_ req m =
  Some (DR_DONE,
        Machine (heap m) (c :: calls m) (events m)
                (err (os (c :: calls m)))).
Proof.
  intros Hreq Hcmd Hop Hudp frm c Hok. unfold Modify_Socket. mstep.
  destruct (decide (devreq.command r = RDC_MODIFY)); [|contradiction].
  apply Z.eqb_neq in Hudp. apply Z.ltb_ge in Hok. subst c.
  destruct Hop as [Hop|Hop]; rewrite Hop in *; cbn [Z.eqb Pos.eqb] in *;
    rewrite Hudp; repeat mstep; fold frm; rewrite Hok; reflexivity.
Qed.

(** X20: modify returns to its caller only for a request whose command is
    RDC_MODIFY and whose operation code is one of the two recognized ones
    (anything else ends in the assertion or in [fail]); it then never
    returns PEND, signals nothing and makes at most one call. *)
Theorem modify_returns_only_recognized frame_ req m res m' :
  Modify_Socket os frame_ req m = Some (res, m') ->
  exists r,
    heap m !! req = Some r /\
    devreq.command r = RDC_MODIFY /\
    (devreq.flags r = 3171 \/ devreq.flags r = 2365) /\
    res <> DR_PEND /\
    events m' = events m /\
    (calls m' = calls m \/ exists c, calls m' = c :: calls m).
Proof.
  destruct (heap m !! req) as [r|] eqn:Hreq.
  2:{ unfold Modify_Socket, bind, load. rewrite Hreq. discriminate. }
  unfold Modify_Socket. mstep.
  destruct (decide (devreq.command r = RDC_MODIFY)) as [Hc|Hc];
    [|done_run; discriminate].
  destruct (devreq.flags r =? 3171) eqn:H1;
    [|destruct (devreq.flags r =? 2365) eqn:H2].
  3:{ done_run. discriminate. }
  all: rewrite ?Z.eqb_eq in *.
  all: mrun; done_run; intros EQ; injection EQ as <- <-; fields;
    exists r; outcome; eauto.
Qed.

Lemma releases_none cs c :
  Forall (fun c => is_close c = false /\ is_free c = false) cs ->
  is_close c = false ->
  releases (cs ++ [c]) = 0%nat.
Proof.
  intros Hcs Hc. unfold releases. induction Hcs as [|x xs [Hx _] _ IH].
  - cbn. now rewrite Hc.
  - cbn. rewrite Hx. exact IH.
Qed.

(** X21: when accept yields a connection but Set_Sock_Options returns
    FALSE on the new handle, the handler returns ERROR with the OS error
    code in the listener's error slot and nothing else changed in the
    store: no request is allocated, the queue is as before, nothing is
    signalled.  No call is made after those of Set_Sock_Options, and none
    of the calls made releases a handle, so the accepted handle stays
    open. *)
Theorem accept_options_failure req m r m2 :
  heap m !! req = Some r ->
  let c := sys_accept (devreq.socket r) in
  let sa := os (c :: calls m) in
  ret sa <> BAD_SOCKET ->
  Set_Sock_Options os (ret sa)
    (Machine (heap m) (c :: calls m) (events m) (err sa))
  = Some (false, m2) ->
  Accept_Socket os req m =
  Some (DR_ERROR,
        Machine (<[req := devreq.set_error (os_error m2) r]> (heap m))
                (calls m2) (events m) (os_error m2)) /\
  exists new, calls m2 = new ++ calls m /\ releases new = 0%nat.
Proof.
  intros Hreq c sa Hfd Hopt. unfold Accept_Socket.
  repeat mstep. fold c. fold sa.
  apply Z.eqb_neq in Hfd. rewrite Hfd.
  destruct (Set_Sock_Options_frame os (ret sa)
              (Machine (heap m) (c :: calls m) (events m) (err sa)))
    as (ok & cs & e & Hs & Hcs & _).
  rewrite Hopt in Hs. injection Hs as <- ->.
  rewrite (bind_run _ _ _ _ _ Hopt). cbn [negb]. repeat mstep. done_run.
  split; [reflexivity|].
  exists (cs ++ [c]). split; [now rewrite <- app_assoc|].
  apply releases_none; [assumption | reflexivity].
Qed.

(** Calls that are not accepts add nothing to the accepted connections. *)
Lemma accepted_app cs h :
  Forall (fun c => is_accept c = false) cs ->
  accepted os (cs ++ h) = accepted os h.
Proof.
  intros Hcs. induction Hcs as [|x xs Hx _ IH]; [reflexivity|].
  cbn [app accepted]. rewrite Hx, IH. cbn [andb]. apply app_nil_r.
Qed.

(** Set_Sock_Options succeeds when the OS accepts every option call, and
    none of its calls is an accept. *)
Lemma Set_Sock_Options_accepted_calls fd m :
  (forall h fd o v, 0 <= ret (os (sys_setsockopt fd o v :: h))) ->
  (forall h fd mode, ret (os (sys_ioctl_fionbio fd mode :: h)) = 0) ->
  (forall h fd fl, 0 <= ret (os (sys_fcntl_setfl fd fl :: h))) ->
  exists cs e,
    Set_Sock_Options os fd m =
    Some (true, Machine (heap m) (cs ++ calls m) (events m) e) /\
    Forall (fun c => is_accept c = false) cs.
Proof.
  intros Hopt Hio Hfl. unfold Set_Sock_Options.
  destruct HAVE_SO_NOSIGPIPE; repeat mstep.
  - pose proof (Hopt (calls m) fd SO_NOSIGPIPE [1]) as H0.
    apply Z.ltb_ge in H0. rewrite H0. cbn [negb].
    destruct HAVE_FIONBIO; repeat mstep; done_run.
    + rewrite Hio. eexists [_; _], _. split; [reflexivity|].
      repeat constructor.
    + match goal with
      | |- context [0 <=? ?x] =>
          assert (Hx : (0 <=? x) = true) by (apply Z.leb_le; apply Hfl);
          rewrite Hx
      end.
      eexists [_; _; _], _. split; [reflexivity|]. repeat constructor.
  - cbn [negb]. destruct HAVE_FIONBIO; repeat mstep; done_run.
    + rewrite Hio. eexists [_], _. split; [reflexivity|].
      repeat constructor.
    + match goal with
      | |- context [0 <=? ?x] =>
          assert (Hx : (0 <=? x) = true) by (apply Z.leb_le; apply Hfl);
          rewrite Hx
      end.
      eexists [_; _], _. split; [reflexivity|]. repeat constructor.
Qed.

(** What one accept does to the store when the OS accepts every option
    call: when the accept call fails, no request appears and the queue,
    the events and the accepted connections of the log are as before;
    when it yields a connection, one fresh OPEN and CONNECTED request
    holding that connection is appended to the queue, with one accept
    event. *)
Lemma Accept_step req m r :
  (forall h fd o v, 0 <= ret (os (sys_setsockopt fd o v :: h))) ->
  (forall h fd mode, ret (os (sys_ioctl_fionbio fd mode :: h)) = 0) ->
  (forall h fd fl, 0 <= ret (os (sys_fcntl_setfl fd fl :: h))) ->
  heap m !! req = Some r ->
  exists res m',
    Accept_Socket os req m = Some (res, m') /\
    (forall p c, p <> req -> heap m !! p = Some c -> heap m' !! p = Some c) /\
    ((events m' = events m /\
      accepted os (calls m') = accepted os (calls m) /\
      exists r', heap m' !! req = Some r' /\
                 devreq.sock r' = devreq.sock r) \/
     (events m' = (req, EVT_ACCEPT) :: events m /\
      exists news n r' fd,
        accepted os (calls m') = accepted os (calls m) ++ [fd] /\
        heap m !! news = None /\ news <> req /\
        heap m' !! news = Some n /\
        devreq.socket n = fd /\
        Z.land (devreq.state n) RSM_OPEN <> 0 /\
        Z.land (devreq.state n) RSM_CONNECT <> 0 /\
        heap m' !! req = Some r' /\
        devreq.sock r' = devreq.sock r ++ [news])).
Proof.
  intros Hopt Hio Hfl Hreq.
  unfold Accept_Socket, Get_Local_IP, Attach_Request.
  destruct (alloc_fresh (heap m)) as [Hnull Hfresh].
  assert (Hne : fresh ({[0]} ∪ dom (heap m) : gset Z) <> req) by congruence.
  repeat mstep.
  set (c := sys_accept (devreq.socket r)). set (sa := os (c :: calls m)).
  destruct (ret sa =? BAD_SOCKET) eqn:Hbad.
  - repeat mstep.
    assert (Hacc : accepted os (c :: calls m) = accepted os (calls m)).
    { cbn [accepted]. fold sa. rewrite Hbad. cbn [negb andb].
      rewrite andb_false_r. apply app_nil_r. }
    msplit; repeat mstep; done_run;
      (eexists _, _; split; [reflexivity|]; fields;
       split; [intros; rewrite ?lookup_insert_ne by congruence; assumption|];
       left; split; [reflexivity|]; split; [exact Hacc|];
       eexists; split; [first [apply lookup_insert_eq | eassumption]|];
       reflexivity).
  - destruct (Set_Sock_Options_accepted_calls (ret sa)
                (Machine (heap m) (c :: calls m) (events m) (err sa))
                Hopt Hio Hfl) as (cs & e & Hs & Hcs).
    rewrite (bind_run _ _ _ _ _ Hs). fields. cbn [negb].
    rewrite bind_OS_ALLOC_ZEROFILL; fields.
    set (news := fresh _) in *. repeat mstep. done_run.
    eexists _, _. split; [reflexivity|]. fields.
    split.
    { intros p x Hp Hlive.
      rewrite lookup_insert_ne by congruence.
      rewrite lookup_insert_ne by congruence. assumption. }
    right. split; [reflexivity|]. eexists news, _, _, (ret sa).
    split.
    { cbn [accepted is_accept andb]. rewrite app_nil_r.
      rewrite accepted_app by assumption.
      cbn [accepted is_accept andb]. fold c. fold sa. rewrite Hbad.
      reflexivity. }
    split; [exact Hfresh|]. split; [exact Hne|].
    split; [rewrite lookup_insert_ne by congruence; apply lookup_insert_eq|].
    fields. rewrite Z.lor_0_l.
    split; [reflexivity|].
    split; [rewrite Z.lor_comm; apply land_lor_same, RSM_OPEN_pos|].
    split; [apply land_lor_same, RSM_CONNECT_pos|].
    split; [apply lookup_insert_eq|]. reflexivity.
Qed.

(** X22: against an OS that accepts every option call, however often
    accept is re-invoked on a listener, its queue is the former queue
    followed by one request for each connection the accept calls
    returned since, in the order the OS returned them: the handles of the
    queued requests are exactly the handles the call log shows as
    accepted.  The new requests are pairwise distinct, differ from the
    listener, did not exist before, are live, OPEN and CONNECTED, and one
    accept event was signalled on the listener for each of them.  (The
    queue is appended to by Attach_Request, which the sources only
    declare; it is taken to append at the tail.) *)
Theorem accept_queue_grows req m0 r0 m1 :
  (forall h fd o v, 0 <= ret (os (sys_setsockopt fd o v :: h))) ->
  (forall h fd mode, ret (os (sys_ioctl_fionbio fd mode :: h)) = 0) ->
  (forall h fd fl, 0 <= ret (os (sys_fcntl_setfl fd fl :: h))) ->
  heap m0 !! req = Some r0 ->
  reaccepts os req m0 m1 ->
  exists r1 added fds,
    heap m1 !! req = Some r1 /\
    devreq.sock r1 = devreq.sock r0 ++ added /\
    accepted os (calls m1) = accepted os (calls m0) ++ fds /\
    Forall2 (fun p fd =>
               p <> req /\ heap m0 !! p = None /\
               exists n, heap m1 !! p = Some n /\
                         devreq.socket n = fd /\
                         Z.land (devreq.state n) RSM_OPEN <> 0 /\
                         Z.land (devreq.state n) RSM_CONNECT <> 0)
            added fds /\
    NoDup added /\
    events m1
    = repeat (req, EVT_ACCEPT) (List.length fds) ++ events m0.
Proof.
  intros Hopt Hio Hfl Hreq Hrun.
  assert (Inv : exists r1 added fds,
    heap m1 !! req = Some r1 /\
    devreq.sock r1 = devreq.sock r0 ++ added /\
    accepted os (calls m1) = accepted os (calls m0) ++ fds /\
    Forall2 (fun p fd =>
               p <> req /\ heap m0 !! p = None /\
               exists n, heap m1 !! p = Some n /\
                         devreq.socket n = fd /\
                         Z.land (devreq.state n) RSM_OPEN <> 0 /\
                         Z.land (devreq.state n) RSM_CONNECT <> 0)
            added fds /\
    NoDup added /\
    events m1
    = repeat (req, EVT_ACCEPT) (List.length fds) ++ events m0 /\
    (forall p c, p <> req -> heap m0 !! p = Some c ->
                 heap m1 !! p = Some c)).
  { induction Hrun as [m | m ma mb res _ IH Hstep].
    - exists r0, [], []. rewrite !app_nil_r. cbn.
      split; [assumption|]. split; [reflexivity|]. split; [reflexivity|].
      split; [constructor|]. split; [constructor|]. auto.
    - destruct (IH Hreq)
        as (ra & added & fds & Ha & Hq & Hacc & Hall & Hnd & Hev & Hold).
      destruct (Accept_step req ma ra Hopt Hio Hfl Ha)
        as (res' & m' & Hrun' & Hothers & Hcase).
      rewrite Hstep in Hrun'. injection Hrun' as <- <-.
      assert (Hkeep : Forall2 (fun p fd =>
                p <> req /\ heap m !! p = None /\
                exists n, heap mb !! p = Some n /\
                          devreq.socket n = fd /\
                          Z.land (devreq.state n) RSM_OPEN <> 0 /\
                          Z.land (devreq.state n) RSM_CONNECT <> 0)
                added fds).
      { eapply Forall2_impl; [exact Hall|].
        intros p fd (Hp & Hnew & n & Hn & Hfd & Ho & Hc).
        split; [assumption|]. split; [assumption|].
        exists n. split; [apply Hothers; assumption|]. auto. }
      destruct Hcase as [(Hev' & Hacc' & r' & Hr' & Hq')
                        |(Hev' & news & n & r' & fd & Hacc' & Hfresh & Hne
                          & Hn & Hfd & Ho & Hc & Hr' & Hq')].
      + exists r', added, fds. rewrite Hq', Hq, Hev', Hev, Hacc', Hacc.
        repeat split; auto.
      + exists r', (added ++ [news]), (fds ++ [fd]).
        rewrite Hq', Hq, Hev', Hev, Hacc', Hacc, length_app, Nat.add_1_r,
          !app_assoc.
        split; [assumption|]. split; [reflexivity|]. split; [reflexivity|].
        assert (Hnotin : news ∉ added).
        { intros Hin. apply list_elem_of_lookup in Hin as [i Hi].
          destruct (Forall2_lookup_l _ _ _ _ _ Hall Hi)
            as (fd' & _ & _ & _ & n' & Hn' & _). congruence. }
        split.
        { apply Forall2_app; [exact Hkeep|].
          constructor; [|constructor].
          split; [assumption|]. split.
          - destruct (heap m !! news) as [x|] eqn:Hc0; [|reflexivity].
            rewrite (Hold news x Hne Hc0) in Hfresh. discriminate.
          - exists n. auto. }
        split.
        { apply NoDup_app. split; [assumption|]. split.
          - intros x Hx Hx'. apply list_elem_of_singleton in Hx'. subst x.
            contradiction.
          - apply NoDup_singleton. }
        split; [reflexivity|].
        intros p x Hp Hc0. apply Hothers; [assumption|]. apply Hold; auto. }
  destruct Inv as (r1 & added & fds & H1 & H2 & H3 & H4 & H5 & H6 & _).
  exists r1, added, fds. auto 7.
Qed.

Lemma land_lor_absorb a b : Z.land (Z.lor a b) b = b.
Proof.
  rewrite Z.land_lor_distr_l, Z.land_diag.
  apply Z.bits_inj'. intros n _.
  rewrite Z.lor_spec, Z.land_spec.
  destruct (Z.testbit a n), (Z.testbit b n); reflexivity.
Qed.

(** X23: Set_Sock_Options touches no request and signals nothing, and
    every call it makes is on the handle it was given.  When it returns
    TRUE, its last call asked for non-blocking mode on that handle (the
    FIONBIO request with mode 1, or F_SETFL with the O_NONBLOCK bits among
    the flags) and the OS accepted it: it answered zero to FIONBIO, or a
    non-negative value to F_SETFL. *)
Theorem set_sock_options_nonblocking fd m ok m' :
  Set_Sock_Options os fd m = Some (ok, m') ->
  heap m' = heap m /\
  events m' = events m /\
  exists c new,
    calls m' = c :: new ++ calls m /\
    Forall (fun x => call_fd x = Some fd) (c :: new) /\
    (ok = true ->
       sets_nonblocking fd c /\
       (if HAVE_FIONBIO then ret (os (calls m')) = 0
        else 0 <= ret (os (calls m')))).
Proof.
  unfold Set_Sock_Options.
  destruct HAVE_SO_NOSIGPIPE eqn:Hsig; repeat mstep.
  - destruct (ret (os (sys_setsockopt fd SO_NOSIGPIPE [1] :: calls m)) <? 0)
      eqn:Hneg; cbn [negb]; [|destruct HAVE_FIONBIO eqn:Hnb];
      repeat mstep; done_run; intros EQ; injection EQ as <- <-; fields;
      (split; [reflexivity|]); (split; [reflexivity|]).
    + exists (sys_setsockopt fd SO_NOSIGPIPE [1]), [].
      split; [reflexivity|]. split; [repeat constructor|]. discriminate.
    + eexists _, [_]. split; [reflexivity|].
      split; [repeat constructor|]. intros Hok. apply Z.eqb_eq in Hok.
      cbn [sets_nonblocking]. auto.
    + eexists _, [_; _]. split; [reflexivity|].
      split; [repeat constructor|]. intros Hok. apply Z.leb_le in Hok.
      cbn [sets_nonblocking]. split; [|exact Hok].
      split; [reflexivity|]. apply land_lor_absorb.
  - destruct HAVE_FIONBIO eqn:Hnb; repeat mstep; done_run;
      intros EQ; injection EQ as <- <-; fields;
      (split; [reflexivity|]); (split; [reflexivity|]).
    + eexists _, []. split; [reflexivity|].
      split; [repeat constructor|]. intros Hok. apply Z.eqb_eq in Hok.
      cbn [sets_nonblocking]. auto.
    + eexists _, [_]. split; [reflexivity|].
      split; [repeat constructor|]. intros Hok. apply Z.leb_le in Hok.
      cbn [sets_nonblocking]. split; [|exact Hok].
      split; [reflexivity|]. apply land_lor_absorb.
Qed.

(** X24: when the accept call itself fails, the handler makes no other
    call and allocates nothing: it returns PEND with the store untouched
    if the OS error code is "would block", and otherwise ERROR with that
    code in the listener's error slot; in both cases nothing is
    signalled. *)
Theorem accept_call_failure req m r :
  heap m !! req = Some r ->
  let c := sys_accept (devreq.socket r) in
  let sa := os (c :: calls m) in
  ret sa = BAD_SOCKET ->
  Accept_Socket os req m =
  Some (if err sa =? NE_WOULDBLOCK then DR_PEND else DR_ERROR,
        Machine (if err sa =? NE_WOULDBLOCK then heap m
                 else <[req := devreq.set_error (err sa) r]> (heap m))
                (c :: calls m) (events m) (err sa)).
Proof.
  intros Hreq c sa Hbad. unfold Accept_Socket. repeat mstep.
  fold c. fold sa. rewrite Hbad, Z.eqb_refl. repeat mstep.
  destruct (err sa =? NE_WOULDBLOCK); repeat mstep; reflexivity.
Qed.


(** One send against an OS that takes at least one byte of every
    non-empty send: actual grows, and the send is DONE exactly when actual
    reaches the length. *)
Lemma send_step_progress req m r :
  (forall h fd buf len fl ip port,
     1 <= len ->
     1 <= ret (os (sys_sendto fd buf len fl ip port :: h)) <= len) ->
  heap m !! req = Some r ->
  devreq.command r <> RDC_READ ->
  Z.land (devreq.state r) RSM_CONNECT <> 0 \/
  Z.land (devreq.modes r) RST_UDP <> 0 ->
  0 <= devreq.actual r < devreq.length r ->
  devreq.length r < 2 ^ 32 ->
  exists res m' r',
    Transfer_Socket os req m = Some (res, m') /\
    heap m' !! req = Some r' /\
    devreq.length r' = devreq.length r /\
    devreq.command r' = devreq.command r /\
    devreq.modes r' = devreq.modes r /\
    (Z.land (devreq.state r) RSM_CONNECT <> 0 ->
     Z.land (devreq.state r') RSM_CONNECT <> 0) /\
    devreq.actual r < devreq.actual r' <= devreq.length r /\
    ((res = DR_DONE /\ devreq.actual r' = devreq.length r /\
      events m' = (req, EVT_WROTE) :: events m) \/
     (res = DR_PEND /\ devreq.actual r' < devreq.length r /\
      events m' = events m)).
Proof.
  intros Hos Hreq Hcmd Hpre Hact Hlen. unfold Transfer_Socket. mstep.
  destruct (decide (devreq.command r = RDC_READ)) as [|_]; [contradiction|].
  assert (Hok : (Z.land (devreq.state r) RSM_CONNECT =? 0)
                && (Z.land (devreq.modes r) RST_UDP =? 0) = false).
  { apply andb_false_iff. rewrite !Z.eqb_neq. exact Hpre. }
  rewrite Hok. repeat mstep. rewrite Z.eqb_refl.
  assert (Hu : u32 (devreq.length r - devreq.actual r)
               = devreq.length r - devreq.actual r)
    by (unfold u32; apply Z.mod_small; lia).
  rewrite Hu. repeat mstep.
  assert (Hmin : 1 <= MIN (devreq.length r - devreq.actual r) MAX_TRANSFER
                 <= devreq.length r - devreq.actual r).
  { pose proof MAX_TRANSFER_pos. unfold MIN.
    destruct (_ <? _) eqn:Hlt; [lia|]. apply Z.ltb_ge in Hlt. lia. }
  match goal with
  | |- context [os (sys_sendto ?fd ?buf ?len ?fl ?ip ?port :: ?h)] =>
      pose proof (Hos h fd buf len fl ip port (proj1 Hmin)) as Hle;
      set (rp := os (sys_sendto fd buf len fl ip port :: h)) in *
  end.
  assert (Hsent : (0 <=? ret rp) = true) by (apply Z.leb_le; lia).
  rewrite Hsent. repeat mstep.
  assert (Hsum : u32 (devreq.actual r + ret rp) = devreq.actual r + ret rp)
    by (unfold u32; apply Z.mod_small; lia).
  rewrite Hsum.
  assert (SC : Z.land RSM_SEND RSM_CONNECT = 0)
    by (rewrite Z.land_comm; apply SEND_CONNECT_disjoint).
  destruct (devreq.length r <=? devreq.actual r + ret rp) eqn:Hfull;
    repeat mstep; done_run;
    [apply Z.leb_le in Hfull | apply Z.leb_gt in Hfull];
    (eexists _, _, _; split; [reflexivity|]; fields;
     split; [apply lookup_insert_eq|]; fields; rewrite ?Hsum;
     rewrite land_lor_other by assumption;
     split; [reflexivity|]; split; [reflexivity|]; split; [reflexivity|];
     split; [auto|]; split; [lia|]).
  - left. repeat split; lia.
  - right. repeat split; lia.
Qed.

(** X26: a send completes.  Against an OS that takes at least one byte of
    every non-empty send, polling a write on a request that is connected
    (or UDP) with 0 <= actual < length < 2^32 reaches DONE after at most
    length - actual invocations, provided the runtime allows that many;
    actual then equals the length exactly, and a single wrote event has
    been signalled over the whole run. *)
Theorem send_completes fuel req m r :
  (forall h fd buf len fl ip port,
     1 <= len ->
     1 <= ret (os (sys_sendto fd buf len fl ip port :: h)) <= len) ->
  heap m !! req = Some r ->
  devreq.command r <> RDC_READ ->
  Z.land (devreq.state r) RSM_CONNECT <> 0 \/
  Z.land (devreq.modes r) RST_UDP <> 0 ->
  0 <= devreq.actual r < devreq.length r ->
  devreq.length r < 2 ^ 32 ->
  devreq.length r - devreq.actual r <= Z.of_nat fuel ->
  exists n m' r',
    resend os fuel req m = Some (Some n, m') /\
    (1 <= n)%nat /\
    Z.of_nat n <= devreq.length r - devreq.actual r /\
    heap m' !! req = Some r' /\
    devreq.actual r' = devreq.length r /\
    devreq.length r' = devreq.length r /\
    events m' = (req, EVT_WROTE) :: events m.
Proof.
  intros Hos. revert m r.
  induction fuel as [|k IH]; intros m r Hreq Hcmd Hpre Hact Hlen Hfuel.
  - cbn in Hfuel. lia.
  - destruct (send_step_progress req m r Hos Hreq Hcmd Hpre Hact Hlen)
      as (res & m1 & r1 & Hrun & Hr1 & Hl1 & Hc1 & Hm1 & Hconn & Ha1 & Hcase).
    cbn [resend]. unfold bind at 1. rewrite Hrun.
    destruct Hcase as [(-> & Hfull & Hev)|(-> & Hless & Hev)].
    + exists 1%nat, m1, r1. unfold mret.
      repeat split; try assumption; lia.
    + destruct (IH m1 r1 Hr1) as (n & m' & r' & Hrest & Hn & Hbound & Hr' &
                                   Ha' & Hl' & Hev');
        try lia; try congruence.
      { destruct Hpre as [Hp|Hp]; [left; auto | right; congruence]. }
      exists (S n), m', r'. unfold bind. rewrite Hrest. unfold mret.
      cbn [option_map]. rewrite Hev', Hev.
      repeat split; try assumption; try congruence; lia.
Qed.

(** Set_Sock_Options succeeds when the OS accepts every option call. *)
Lemma Set_Sock_Options_accepted fd m :
  (forall h fd o v, 0 <= ret (os (sys_setsockopt fd o v :: h))) ->
  (forall h fd mode, ret (os (sys_ioctl_fionbio fd mode :: h)) = 0) ->
  (forall h fd fl, 0 <= ret (os (sys_fcntl_setfl fd fl :: h))) ->
  exists cs e,
    Set_Sock_Options os fd m =
    Some (true, Machine (heap m) (cs ++ calls m) (events m) e).
Proof.
  intros Hopt Hio Hfl. unfold Set_Sock_Options.
  destruct HAVE_SO_NOSIGPIPE; repeat mstep.
  - pose proof (Hopt (calls m) fd SO_NOSIGPIPE [1]) as H0.
    apply Z.ltb_ge in H0. rewrite H0. cbn [negb].
    destruct HAVE_FIONBIO; repeat mstep; done_run.
    + rewrite Hio. eexists [_; _], _. reflexivity.
    + match goal with
      | |- context [0 <=? ?x] =>
          assert (Hx : (0 <=? x) = true) by (apply Z.leb_le; apply Hfl);
          rewrite Hx
      end.
      eexists [_; _; _], _. reflexivity.
  - cbn [negb]. destruct HAVE_FIONBIO; repeat mstep; done_run.
    + rewrite Hio. eexists [_], _. reflexivity.
    + match goal with
      | |- context [0 <=? ?x] =>
          assert (Hx : (0 <=? x) = true) by (apply Z.leb_le; apply Hfl);
          rewrite Hx
      end.
      eexists [_; _], _. reflexivity.
Qed.

(** X27: a UDP exchange from scratch.  Against an OS that creates the
    socket, accepts every option call and takes every byte of a send, a
    request in UDP mode (not a listener) whose pending bytes fit in one
    transfer goes through open, connect and write with DONE three times:
    it ends OPEN and CONNECTED, holding the created handle, with actual
    equal to the length, its local endpoint as queried from the OS, and
    exactly a connect event followed by a wrote event signalled. *)
Theorem udp_session_succeeds req m r :
  (forall h t p, ret (os (sys_socket t p :: h)) <> BAD_SOCKET) ->
  (forall h fd o v, 0 <= ret (os (sys_setsockopt fd o v :: h))) ->
  (forall h fd mode, ret (os (sys_ioctl_fionbio fd mode :: h)) = 0) ->
  (forall h fd fl, 0 <= ret (os (sys_fcntl_setfl fd fl :: h))) ->
  (forall h fd buf len fl ip port,
     ret (os (sys_sendto fd buf len fl ip port :: h)) = len) ->
  heap m !! req = Some r ->
  Z.land (devreq.modes r) RST_UDP <> 0 ->
  Z.land (devreq.modes r) RST_LISTEN = 0 ->
  0 <= devreq.actual r <= devreq.length r ->
  devreq.length r - devreq.actual r <= MAX_TRANSFER ->
  devreq.length r < 2 ^ 32 ->
  exists m' r',
    udp_session os req m = Some ((DR_DONE, DR_DONE, DR_DONE), m') /\
    heap m' !! req = Some r' /\
    devreq.actual r' = devreq.length r /\
    devreq.socket r' = ret (os (sys_socket SOCK_DGRAM IPPROTO_UDP :: calls m))
    /\
    Z.land (devreq.state r') RSM_OPEN <> 0 /\
    Z.land (devreq.state r') RSM_CONNECT <> 0 /\
    events m' = (req, EVT_WROTE) :: (req, EVT_CONNECT) :: events m /\
    (exists h, tl (calls m') = sys_getsockname (devreq.socket r') :: h) /\
    devreq.local_ip r' = addr_ip (os (tl (calls m'))) /\
    devreq.local_port r' = addr_port (os (tl (calls m'))).
Proof.
  intros Hsock Hopt Hio Hfl Hsend Hreq Hudp Hl Hact Hcap Hlen.
  unfold udp_session, Open_Socket. repeat mstep.
  apply Z.eqb_neq in Hudp. rewrite Hudp. cbn [negb].
  set (fd := ret (os (sys_socket SOCK_DGRAM IPPROTO_UDP :: calls m))).
  assert (Hfd : (fd =? BAD_SOCKET) = false)
    by (apply Z.eqb_neq; apply Hsock).
  rewrite Hfd. repeat mstep.
  match goal with
  | |- context [bind (Set_Sock_Options os fd) ?k ?m0] =>
      destruct (Set_Sock_Options_accepted fd m0 Hopt Hio Hfl)
        as (cs & e & Hs);
      unfold bind at 1; rewrite Hs; fields
  end.
  cbn [negb]. repeat mstep.
  unfold Connect_Socket, Get_Local_IP. repeat mstep.
  rewrite Hl. cbn [Z.eqb negb].
  pose proof OPEN_CONNECT_disjoint as OC.
  assert (Hnc : (Z.land (Z.lor 0 RSM_OPEN) RSM_CONNECT =? 0) = true).
  { apply Z.eqb_eq. rewrite Z.lor_0_l. exact OC. }
  rewrite Hnc. cbn [negb]. rewrite Hudp. cbn [negb]. repeat mstep.
  unfold Transfer_Socket. repeat mstep.
  destruct (decide (RDC_WRITE = RDC_READ)); [discriminate|].
  rewrite Hudp. rewrite andb_false_r. repeat mstep. rewrite Z.eqb_refl.
  assert (Hu : u32 (devreq.length r - devreq.actual r)
               = devreq.length r - devreq.actual r)
    by (unfold u32; apply Z.mod_small; lia).
  rewrite Hu.
  assert (Hmin : MIN (devreq.length r - devreq.actual r) MAX_TRANSFER
                 = devreq.length r - devreq.actual r).
  { unfold MIN. destruct (_ <? _) eqn:Hlt; [reflexivity|].
    apply Z.ltb_ge in Hlt. lia. }
  rewrite Hmin. repeat mstep. rewrite Hsend.
  assert (Hnn : (0 <=? devreq.length r - devreq.actual r) = true)
    by (apply Z.leb_le; lia).
  rewrite Hnn. repeat mstep.
  replace (devreq.actual r + (devreq.length r - devreq.actual r))
    with (devreq.length r) by lia.
  assert (Hlu : u32 (devreq.length r) = devreq.length r)
    by (unfold u32; apply Z.mod_small; lia).
  rewrite Hlu, Z.leb_refl. repeat mstep. done_run.
  eexists _, _. split; [reflexivity|]. fields.
  split; [apply lookup_insert_eq|]. fields.
  split; [reflexivity|]. split; [reflexivity|].
  assert (SO : Z.land RSM_SEND RSM_OPEN = 0)
    by (flag_laws; rewrite Z.land_comm; assumption).
  assert (CO : Z.land RSM_CONNECT RSM_OPEN = 0)
    by (rewrite Z.land_comm; exact OC).
  assert (AO : Z.land RSM_ATTEMPT RSM_OPEN = 0)
    by (flag_laws; rewrite Z.land_comm; assumption).
  assert (SC : Z.land RSM_SEND RSM_CONNECT = 0)
    by (rewrite Z.land_comm; apply SEND_CONNECT_disjoint).
  rewrite Z.lor_0_l.
  split.
  { rewrite !land_lor_other by assumption.
    rewrite land_clear_other by assumption.
    rewrite Z.land_diag. pose proof RSM_OPEN_pos. lia. }
  split.
  { rewrite land_lor_other by assumption.
    apply land_lor_same, RSM_CONNECT_pos. }
  split; [reflexivity|].
  split; [eexists; reflexivity|]. split; reflexivity.
Qed.

End Extras.


(** X25: initialising and shutting down the device.  Init_Net fails only
    on Windows when WSAStartup answers non-zero, and then leaves the
    device flags alone.  When it succeeds the initialised bit is set, and
    a Quit_Net that follows returns DONE, clears that bit, gives every
    other device flag the value it had before the initialisation, and
    calls WSACleanup exactly on Windows.  Quit_Net on a device that is not
    initialised never calls WSACleanup. *)
Theorem init_quit_pairing {P : Platform} (RDF_INIT startup dev_flags : Z) :
  0 < RDF_INIT ->
  let init := Init_Net RDF_INIT startup dev_flags in
  let quit := Quit_Net RDF_INIT (snd init) in
  (fst init = DR_ERROR ->
     TO_WINDOWS = true /\ startup <> 0 /\ snd init = dev_flags) /\
  (fst init = DR_DONE ->
     Z.land (snd init) RDF_INIT <> 0 /\
     fst (fst quit) = DR_DONE /\
     Z.land (snd (fst quit)) RDF_INIT = 0 /\
     (forall g, Z.land RDF_INIT g = 0 ->
                Z.land (snd (fst quit)) g = Z.land dev_flags g) /\
     snd quit = TO_WINDOWS) /\
  (Z.land dev_flags RDF_INIT = 0 ->
     snd (Quit_Net RDF_INIT dev_flags) = false).
Proof.
  intros Hpos. unfold Init_Net, Quit_Net.
  destruct TO_WINDOWS; cbn [andb];
    [destruct (startup =? 0) eqn:Hs; cbn [negb]|]; cbn [fst snd].
  - split; [discriminate|]. split.
    + intros _. assert (Hset := land_lor_same dev_flags RDF_INIT Hpos).
      split; [exact Hset|]. split; [reflexivity|].
      split; [apply land_clear_same|]. split.
      * intros g Hg. rewrite land_clear_other by assumption.
        apply land_lor_other. assumption.
      * apply Z.eqb_neq in Hset. now rewrite Hset.
    + intros Hz. now rewrite Hz.
  - apply Z.eqb_neq in Hs. split; [auto|]. split; [discriminate|].
    intros Hz. now rewrite Hz.
  - split; [discriminate|]. split; [|reflexivity].
    intros _. split; [apply land_lor_same; assumption|].
    split; [reflexivity|]. split; [apply land_clear_same|]. split.
    + intros g Hg. rewrite land_clear_other by assumption.
      apply land_lor_other. assumption.
    + reflexivity.
Qed.

(** ** The further properties on explicit inputs *)

Lemma open_success_state_witness :
  heap (single fresh_tcp) !! 100 = Some fresh_tcp /\
  exists m',
    Open_Socket (P:=posix) obliging 100 (single fresh_tcp)
    = Some (DR_DONE, m') /\
    heap m' !! 100 =
      Some (devreq.set_state 1 (devreq.set_socket 7
              (devreq.set_error 0 fresh_tcp))).
Proof.
  assert (H1 : heap (single fresh_tcp) !! 100 = Some fresh_tcp)
    by reflexivity.
  assert (Hrun : {m' | Open_Socket (P:=posix) obliging 100 (single fresh_tcp)
                       = Some (DR_DONE, m')})
    by (eexists; vm_compute; reflexivity).
  destruct Hrun as [m' Hrun].
  split; [exact H1|]. exists m'. split; [exact Hrun|].
  exact (proj1 (proj2 (open_success_state (P:=posix) obliging 100 _ _ m'
                         H1 Hrun))).
Defined.

Lemma open_then_close_releases_witness :
  (heap (single fresh_tcp) !! 100 = Some fresh_tcp /\
   devreq.host_info fresh_tcp = 0) /\
  exists res m1 res2 m2 r2,
    Open_Socket (P:=posix) obliging 100 (single fresh_tcp) = Some (res, m1) /\
    Close_Socket (P:=posix) obliging 100 m1 = Some (res2, m2) /\
    heap m2 !! 100 = Some r2 /\
    devreq.state r2 = 0.
Proof.
  assert (H1 : heap (single fresh_tcp) !! 100 = Some fresh_tcp)
    by reflexivity.
  assert (H2 : devreq.host_info fresh_tcp = 0) by reflexivity.
  assert (Hrun : {x | Open_Socket (P:=posix) obliging 100 (single fresh_tcp)
                      = Some x})
    by (eexists; vm_compute; reflexivity).
  destruct Hrun as [[res m1] Hrun].
  split; [auto|].
  destruct (open_then_close_releases (P:=posix) obliging 100 _ _ res m1
              H1 H2 Hrun) as (res2 & m2 & r2 & Hc & Hr2 & Hs & _).
  exists res, m1, res2, m2, r2. auto.
Defined.

Lemma close_open_request_witness :
  (heap (single connected_client) !! 100 = Some connected_client /\
   Z.land (devreq.state connected_client) (@RSM_OPEN posix) <> 0 /\
   devreq.host_info connected_client = 0) /\
  exists res m',
    Close_Socket (P:=posix) obliging 100 (single connected_client)
    = Some (res, m') /\
    calls m' = [sys_close 3].
Proof.
  assert (H1 : heap (single connected_client) !! 100 = Some connected_client)
    by reflexivity.
  assert (H2 : Z.land (devreq.state connected_client) (@RSM_OPEN posix) <> 0)
    by (vm_compute; lia).
  assert (H3 : devreq.host_info connected_client = 0) by reflexivity.
  split; [auto|].
  destruct (close_open_request (P:=posix) obliging 100 _ _ H1 H2 H3)
    as (res & m' & Hrun & Hc & _).
  exists res, m'. auto.
Defined.

Lemma close_aborts_dns_phase_witness :
  (heap (single dns_pending) !! 100 = Some dns_pending /\
   Z.land (devreq.state dns_pending) (@RSM_OPEN posix) <> 0 /\
   devreq.host_info dns_pending <> 0) /\
  exists res m',
    Close_Socket (P:=posix) obliging 100 (single dns_pending)
    = Some (res, m') /\
    calls m' = [sys_close 42; sys_free 900].
Proof.
  assert (H1 : heap (single dns_pending) !! 100 = Some dns_pending)
    by reflexivity.
  assert (H2 : Z.land (devreq.state dns_pending) (@RSM_OPEN posix) <> 0)
    by (vm_compute; lia).
  assert (H3 : devreq.host_info dns_pending <> 0) by (vm_compute; lia).
  split; [auto|].
  destruct (close_aborts_dns_phase (P:=posix) obliging 100 _ _ H1 H2 H3)
    as (res & m' & r' & Hrun & Hc & _).
  exists res, m'. auto.
Defined.

Lemma connect_result_matches_state_witness :
  (heap (single tcp_open) !! 100 = Some tcp_open /\
   Z.land (devreq.modes tcp_open) (@RST_LISTEN posix) = 0) /\
  exists res m' r',
    Connect_Socket (P:=posix) (scripted [Reply (-1) 115 0 0]) 100
      (single tcp_open) = Some (res, m') /\
    heap m' !! 100 = Some r' /\
    (res = DR_PEND ->
     Z.land (devreq.state r') (@RSM_ATTEMPT posix) <> 0).
Proof.
  assert (H1 : heap (single tcp_open) !! 100 = Some tcp_open) by reflexivity.
  assert (H2 : Z.land (devreq.modes tcp_open) (@RST_LISTEN posix) = 0)
    by reflexivity.
  split; [auto|].
  destruct (connect_result_matches_state (P:=posix)
              (scripted [Reply (-1) 115 0 0]) 100 _ _ H1 H2)
    as (res & m' & r' & Hrun & Hr' & _ & Hp & _).
  exists res, m', r'. split; [exact Hrun|]. split; [exact Hr'|].
  intros Hres. exact (proj1 (Hp Hres)).
Defined.

Lemma connect_udp_is_local_witness :
  (heap (single udp_open) !! 100 = Some udp_open /\
   Z.land (devreq.modes udp_open) (@RST_LISTEN posix) = 0 /\
   Z.land (devreq.state udp_open) (@RSM_CONNECT posix) = 0 /\
   Z.land (devreq.modes udp_open) (@RST_UDP posix) <> 0) /\
  exists m',
    Connect_Socket (P:=posix) obliging 100 (single udp_open)
    = Some (DR_DONE, m') /\
    calls m' = [sys_getsockname 3] /\
    events m' = [(100, EVT_CONNECT)].
Proof.
  assert (H1 : heap (single udp_open) !! 100 = Some udp_open) by reflexivity.
  assert (H2 : Z.land (devreq.modes udp_open) (@RST_LISTEN posix) = 0)
    by reflexivity.
  assert (H3 : Z.land (devreq.state udp_open) (@RSM_CONNECT posix) = 0)
    by reflexivity.
  assert (H4 : Z.land (devreq.modes udp_open) (@RST_UDP posix) <> 0)
    by (vm_compute; lia).
  split; [auto|].
  eexists. split;
    [exact (connect_udp_is_local (P:=posix) obliging 100 _ _ H1 H2 H3 H4)|].
  split; reflexivity.
Defined.

Lemma connect_tcp_outcome_witness :
  (heap (single tcp_open) !! 100 = Some tcp_open /\
   Z.land (devreq.modes tcp_open) (@RST_LISTEN posix) = 0 /\
   Z.land (devreq.state tcp_open) (@RSM_CONNECT posix) = 0 /\
   Z.land (devreq.modes tcp_open) (@RST_UDP posix) = 0) /\
  exists res m' r',
    Connect_Socket (P:=posix) obliging 100 (single tcp_open)
    = Some (res, m') /\
    heap m' !! 100 = Some r' /\
    (res = DR_DONE <-> 0 = 0 \/ 0 = @NE_ISCONN posix).
Proof.
  assert (H1 : heap (single tcp_open) !! 100 = Some tcp_open) by reflexivity.
  assert (H2 : Z.land (devreq.modes tcp_open) (@RST_LISTEN posix) = 0)
    by reflexivity.
  assert (H3 : Z.land (devreq.state tcp_open) (@RSM_CONNECT posix) = 0)
    by reflexivity.
  assert (H4 : Z.land (devreq.modes tcp_open) (@RST_UDP posix) = 0)
    by reflexivity.
  split; [auto|].
  destruct (connect_tcp_outcome (P:=posix) obliging 100 _ _ H1 H2 H3 H4)
    as (res & m' & r' & Hrun & Hr' & Hiff & _).
  exists res, m', r'. auto.
Defined.


Lemma listen_udp_never_listens_witness :
  (heap (single udp_server) !! 100 = Some udp_server /\
   devreq.sock udp_server = [] /\
   Z.land (devreq.modes udp_server) (@RST_UDP posix) <> 0) /\
  exists res m' r',
    Listen_Socket (P:=posix) obliging 100 (single udp_server)
    = Some (res, m') /\
    heap m' !! 100 = Some r' /\
    Z.land (devreq.state r') (@RSM_LISTEN posix)
    = Z.land (devreq.state udp_server) (@RSM_LISTEN posix).
Proof.
  assert (H1 : heap (single udp_server) !! 100 = Some udp_server)
    by reflexivity.
  assert (H2 : devreq.sock udp_server = []) by reflexivity.
  assert (H3 : Z.land (devreq.modes udp_server) (@RST_UDP posix) <> 0)
    by (vm_compute; lia).
  split; [auto|].
  destruct (listen_udp_never_listens (P:=posix) obliging 100 _ _ H1 H2 H3)
    as (res & m' & r' & Hrun & Hr' & _ & Hl & _).
  exists res, m', r'. auto.
Defined.

Lemma connect_on_listener_witness :
  (heap (single tcp_server) !! 100 = Some tcp_server /\
   Z.land (devreq.modes tcp_server) (@RST_LISTEN posix) <> 0) /\
  (devreq.sock tcp_server = [] ->
   exists res m' r',
     Connect_Socket (P:=posix) obliging 100 (single tcp_server)
     = Some (res, m') /\
     heap m' !! 100 = Some r' /\
     res <> DR_DONE).
Proof.
  assert (H1 : heap (single tcp_server) !! 100 = Some tcp_server)
    by reflexivity.
  assert (H2 : Z.land (devreq.modes tcp_server) (@RST_LISTEN posix) <> 0)
    by (vm_compute; lia).
  split; [auto|]. intros Hq.
  destruct (proj2 (connect_on_listener (P:=posix) obliging 100 _ _ H1 H2) Hq)
    as (res & m' & r' & Hrun & Hr' & _ & Hres & _).
  exists res, m', r'. auto.
Defined.

Lemma transfer_requires_connection_witness :
  (heap (single tcp_open) !! 100 = Some tcp_open /\
   Z.land (devreq.state tcp_open) (@RSM_CONNECT posix) = 0 /\
   Z.land (devreq.modes tcp_open) (@RST_UDP posix) = 0) /\
  exists m',
    Transfer_Socket (P:=posix) obliging 100 (single tcp_open)
    = Some (DR_ERROR, m') /\
    calls m' = [] /\ events m' = [].
Proof.
  assert (H1 : heap (single tcp_open) !! 100 = Some tcp_open) by reflexivity.
  assert (H2 : Z.land (devreq.state tcp_open) (@RSM_CONNECT posix) = 0)
    by reflexivity.
  assert (H3 : Z.land (devreq.modes tcp_open) (@RST_UDP posix) = 0)
    by reflexivity.
  split; [auto|].
  eexists. split;
    [exact (transfer_requires_connection (P:=posix) obliging 100 _ _
              H1 H2 H3)|].
  split; reflexivity.
Defined.

Lemma transfer_respects_cap_witness :
  (heap (single sender) !! 100 = Some sender /\
   0 <= devreq.actual sender <= devreq.length sender /\
   devreq.length sender < 2 ^ 32) /\
  exists res m',
    Transfer_Socket (P:=posix) obliging 100 (single sender)
    = Some (res, m').
Proof.
  assert (H1 : heap (single sender) !! 100 = Some sender) by reflexivity.
  assert (H2 : 0 <= devreq.actual sender <= devreq.length sender)
    by (simpl; lia).
  assert (H3 : devreq.length sender < 2 ^ 32) by (simpl; lia).
  split; [auto|].
  destruct (transfer_respects_cap (P:=posix) obliging 100 _ _ H1 H2 H3)
    as (res & m' & Hrun & _).
  exists res, m'. exact Hrun.
Defined.

Lemma receive_data_witness :
  (heap (single reader) !! 100 = Some reader /\
   devreq.command reader = RDC_READ /\
   (Z.land (devreq.state reader) (@RSM_CONNECT posix) <> 0 \/
    Z.land (devreq.modes reader) (@RST_UDP posix) <> 0) /\
   0 < ret (scripted [Reply 4 0 9 4000]
              (sys_recvfrom (devreq.socket reader) (devreq.data reader)
                 (MIN (u32 (devreq.length reader - devreq.actual reader))
                      (@MAX_TRANSFER posix))
               :: calls (single reader)))) /\
  exists m' r',
    Transfer_Socket (P:=posix) (scripted [Reply 4 0 9 4000]) 100
      (single reader) = Some (DR_DONE, m') /\
    heap m' !! 100 = Some r' /\
    devreq.actual r' = 4.
Proof.
  assert (H1 : heap (single reader) !! 100 = Some reader) by reflexivity.
  assert (H2 : devreq.command reader = RDC_READ) by reflexivity.
  assert (H3 : Z.land (devreq.state reader) (@RSM_CONNECT posix) <> 0 \/
               Z.land (devreq.modes reader) (@RST_UDP posix) <> 0)
    by (left; vm_compute; lia).
  assert (H4 : 0 < ret (scripted [Reply 4 0 9 4000]
              (sys_recvfrom (devreq.socket reader) (devreq.data reader)
                 (MIN (u32 (devreq.length reader - devreq.actual reader))
                      (@MAX_TRANSFER posix))
               :: calls (single reader)))) by (vm_compute; reflexivity).
  split; [auto|].
  destruct (receive_data (P:=posix) (scripted [Reply 4 0 9 4000]) 100 _ _
              H1 H2 H3 H4) as (m' & r' & Hrun & Hr' & Ha & _).
  exists m', r'. auto.
Defined.

Lemma transfer_signals_iff_done_witness :
  heap (single sender) !! 100 = Some sender /\
  exists res m',
    Transfer_Socket (P:=posix) obliging 100 (single sender)
    = Some (res, m') /\
    (res <> DR_DONE -> events m' = events (single sender)).
Proof.
  assert (H1 : heap (single sender) !! 100 = Some sender) by reflexivity.
  split; [exact H1|].
  destruct (transfer_signals_iff_done (P:=posix) obliging 100 _ _ H1)
    as (res & m' & Hrun & _ & Hn).
  exists res, m'. auto.
Defined.

Lemma transfer_error_code_witness :
  heap (single sender) !! 100 = Some sender /\
  exists res m' r',
    Transfer_Socket (P:=posix) (scripted []) 100 (single sender)
    = Some (res, m') /\
    heap m' !! 100 = Some r' /\
    (res = DR_ERROR -> devreq.actual r' = devreq.actual sender).
Proof.
  assert (H1 : heap (single sender) !! 100 = Some sender) by reflexivity.
  split; [exact H1|].
  destruct (transfer_error_code (P:=posix) (scripted []) 100 _ _ H1)
    as (res & m' & r' & Hrun & Hr' & He).
  exists res, m', r'. split; [exact Hrun|]. split; [exact Hr'|].
  intros Hres. exact (proj1 (proj2 (He Hres))).
Defined.

Lemma send_cursor_tracks_actual_witness :
  ((forall h fd buf len fl ip port,
      0 <= len ->
      ret (chunked 4 (sys_sendto fd buf len fl ip port :: h)) <= len) /\
   heap (single sender) !! 100 = Some sender /\
   devreq.command sender <> RDC_READ /\
   0 <= devreq.actual sender <= devreq.length sender /\
   devreq.length sender < 2 ^ 32) /\
  exists m1 r1,
    retransfers (P:=posix) (chunked 4) 100 (single sender) m1 /\
    heap m1 !! 100 = Some r1 /\
    devreq.data r1 - devreq.actual r1
    = devreq.data sender - devreq.actual sender.
Proof.
  assert (H0 : forall h fd buf len fl ip port,
            0 <= len ->
            ret (chunked 4 (sys_sendto fd buf len fl ip port :: h)) <= len)
    by (intros; simpl; lia).
  assert (H1 : heap (single sender) !! 100 = Some sender) by reflexivity.
  assert (H2 : devreq.command sender <> RDC_READ) by (simpl; discriminate).
  assert (H3 : 0 <= devreq.actual sender <= devreq.length sender)
    by (simpl; lia).
  assert (H4 : devreq.length sender < 2 ^ 32) by (simpl; lia).
  split; [auto|].
  assert (Hrun : exists m1,
            retransfers (P:=posix) (chunked 4) 100 (single sender) m1).
  { eexists. eapply retransfers_step; [apply retransfers_refl|].
    vm_compute. reflexivity. }
  destruct Hrun as (m1 & Hrun).
  destruct (send_cursor_tracks_actual (P:=posix) (chunked 4) 100 _ _ m1
              H0 H1 H2 H3 H4 Hrun) as (r1 & Hr1 & _ & Hd).
  exists m1, r1. auto.
Defined.

Lemma lookup_outcome_witness :
  heap (single connected_client) !! 100 = Some connected_client /\
  exists res m' r',
    Lookup_Socket (P:=posix) (scripted [Reply 1 0 9 0]) 100
      (single connected_client) = Some (res, m') /\
    heap m' !! 100 = Some r' /\
    res <> DR_PEND.
Proof.
  assert (H1 : heap (single connected_client) !! 100 = Some connected_client)
    by reflexivity.
  split; [exact H1|].
  destruct (lookup_outcome (P:=posix) (scripted [Reply 1 0 9 0]) 100 _ _ H1)
    as (res & m' & r' & Hrun & Hr' & _ & Hres & _).
  exists res, m', r'. auto.
Defined.

Lemma modify_requires_udp_witness :
  (heap (single tcp_ttl) !! 100 = Some tcp_ttl /\
   devreq.command tcp_ttl = RDC_MODIFY /\
   (devreq.flags tcp_ttl = 3171 \/ devreq.flags tcp_ttl = 2365) /\
   Z.land (devreq.modes tcp_ttl) (@RST_UDP posix) = 0) /\
  exists m',
    Modify_Socket (P:=posix) obliging ttl_frame 100 (single tcp_ttl)
    = Some (DR_ERROR, m') /\
    calls m' = [].
Proof.
  assert (H1 : heap (single tcp_ttl) !! 100 = Some tcp_ttl) by reflexivity.
  assert (H2 : devreq.command tcp_ttl = RDC_MODIFY) by reflexivity.
  assert (H3 : devreq.flags tcp_ttl = 3171 \/ devreq.flags tcp_ttl = 2365)
    by (right; reflexivity).
  assert (H4 : Z.land (devreq.modes tcp_ttl) (@RST_UDP posix) = 0)
    by reflexivity.
  split; [auto|].
  eexists. split;
    [exact (modify_requires_udp (P:=posix) obliging ttl_frame 100 _ _
              H1 H2 H3 H4)|].
  reflexivity.
Defined.

Lemma modify_success_witness :
  (heap (single udp_join) !! 100 = Some udp_join /\
   devreq.command udp_join = RDC_MODIFY /\
   (devreq.flags udp_join = 3171 \/ devreq.flags udp_join = 2365) /\
   Z.land (devreq.modes udp_join) (@RST_UDP posix) <> 0 /\
   0 <= ret (obliging
               [sys_setsockopt 3 IP_ADD_MEMBERSHIP [224; 127]])) /\
  exists m',
    Modify_Socket (P:=posix) obliging join_frame 100 (single udp_join)
    = Some (DR_DONE, m') /\
    heap m' = heap (single udp_join) /\
    calls m' = [sys_setsockopt 3 IP_ADD_MEMBERSHIP [224; 127]].
Proof.
  assert (H1 : heap (single udp_join) !! 100 = Some udp_join) by reflexivity.
  assert (H2 : devreq.command udp_join = RDC_MODIFY) by reflexivity.
  assert (H3 : devreq.flags udp_join = 3171 \/ devreq.flags udp_join = 2365)
    by (left; reflexivity).
  assert (H4 : Z.land (devreq.modes udp_join) (@RST_UDP posix) <> 0)
    by (vm_compute; lia).
  assert (H5 : 0 <= ret (obliging
               [sys_setsockopt 3 IP_ADD_MEMBERSHIP [224; 127]]))
    by (simpl; lia).
  split; [auto 6|].
  eexists. split;
    [exact (modify_success (P:=posix) obliging join_frame 100 _ _
              H1 H2 H3 H4 H5)|].
  split; reflexivity.
Defined.

Lemma modify_returns_only_recognized_witness :
  exists m' r,
    Modify_Socket (P:=posix) obliging ttl_frame 100 (single udp_ttl)
    = Some (DR_DONE, m') /\
    heap (single udp_ttl) !! 100 = Some r /\
    devreq.command r = RDC_MODIFY /\
    (devreq.flags r = 3171 \/ devreq.flags r = 2365).
Proof.
  assert (Hrun : {m' | Modify_Socket (P:=posix) obliging ttl_frame 100
                         (single udp_ttl) = Some (DR_DONE, m')})
    by (eexists; vm_compute; reflexivity).
  destruct Hrun as [m' Hrun].
  destruct (modify_returns_only_recognized (P:=posix) obliging ttl_frame 100
              _ _ _ Hrun) as (r & Hr & Hc & Hf & _).
  exists m', r. auto.
Defined.

Lemma accept_options_failure_witness :
  exists m2,
    (heap (single listener) !! 100 = Some listener /\
     ret (scripted [Reply 7 0 9 4000; Reply (-1) 22 0 0]
            (sys_accept (devreq.socket listener) :: calls (single listener)))
     <> @BAD_SOCKET posix /\
     Set_Sock_Options (P:=posix)
       (scripted [Reply 7 0 9 4000; Reply (-1) 22 0 0]) 7
       (Machine (heap (single listener))
          [sys_accept (devreq.socket listener)] [] 0)
     = Some (false, m2)) /\
    Accept_Socket (P:=posix)
      (scripted [Reply 7 0 9 4000; Reply (-1) 22 0 0]) 100 (single listener)
    = Some (DR_ERROR,
            Machine (<[100 := devreq.set_error 22 listener]>
                       (heap (single listener)))
                    [sys_ioctl_fionbio 7 1; sys_accept 3] [] 22).
Proof.
  assert (H1 : heap (single listener) !! 100 = Some listener) by reflexivity.
  assert (H2 : ret (scripted [Reply 7 0 9 4000; Reply (-1) 22 0 0]
            (sys_accept (devreq.socket listener) :: calls (single listener)))
               <> @BAD_SOCKET posix) by (vm_compute; lia).
  exists (Machine (heap (single listener))
            [sys_ioctl_fionbio 7 1; sys_accept 3] [] 22).
  assert (H3 : Set_Sock_Options (P:=posix)
       (scripted [Reply 7 0 9 4000; Reply (-1) 22 0 0]) 7
       (Machine (heap (single listener))
          [sys_accept (devreq.socket listener)] [] 0)
     = Some (false, Machine (heap (single listener))
                      [sys_ioctl_fionbio 7 1; sys_accept 3] [] 22))
    by reflexivity.
  split; [auto|].
  exact (proj1 (accept_options_failure (P:=posix)
                  (scripted [Reply 7 0 9 4000; Reply (-1) 22 0 0]) 100 _ _ _
                  H1 H2 H3)).
Defined.

Lemma accept_queue_grows_witness :
  ((forall h fd o v, 0 <= ret (obliging (sys_setsockopt fd o v :: h))) /\
   (forall h fd mode, ret (obliging (sys_ioctl_fionbio fd mode :: h)) = 0) /\
   (forall h fd fl, 0 <= ret (obliging (sys_fcntl_setfl fd fl :: h))) /\
   heap (single listener) !! 100 = Some listener) /\
  exists m1 r1 added,
    reaccepts (P:=posix) obliging 100 (single listener) m1 /\
    heap m1 !! 100 = Some r1 /\
    devreq.sock r1 = devreq.sock listener ++ added /\
    List.length added = 2%nat /\
    NoDup added /\
    events m1 = [(100, EVT_ACCEPT); (100, EVT_ACCEPT)].
Proof.
  assert (H2 : forall h fd o v,
            0 <= ret (obliging (sys_setsockopt fd o v :: h)))
    by (intros; simpl; lia).
  assert (H3 : forall h fd mode,
            ret (obliging (sys_ioctl_fionbio fd mode :: h)) = 0)
    by (intros; reflexivity).
  assert (H4 : forall h fd fl,
            0 <= ret (obliging (sys_fcntl_setfl fd fl :: h)))
    by (intros; simpl; lia).
  assert (H1 : heap (single listener) !! 100 = Some listener) by reflexivity.
  split; [auto|].
  assert (Hrun : exists m1,
            reaccepts (P:=posix) obliging 100 (single listener) m1 /\
            accepted (P:=posix) obliging (calls m1) = [7; 7]).
  { eexists. split.
    - eapply reaccepts_step;
        [eapply reaccepts_step; [apply reaccepts_refl|]|];
        vm_compute; reflexivity.
    - vm_compute. reflexivity. }
  destruct Hrun as (m1 & Hrun & Hlog).
  destruct (accept_queue_grows (P:=posix) obliging 100 _ _ m1 H2 H3 H4 H1
              Hrun)
    as (r1 & added & fds & Hr1 & Hq & Hacc & Hall & Hnd & Hev).
  rewrite Hlog in Hacc. cbn in Hacc. subst fds.
  exists m1, r1, added.
  split; [exact Hrun|]. split; [exact Hr1|]. split; [exact Hq|].
  split; [exact (Forall2_length _ _ _ Hall)|]. split; [exact Hnd|].
  exact Hev.
Defined.

Lemma set_sock_options_nonblocking_witness :
  exists ok m',
    Set_Sock_Options (P:=posix) obliging 7 (single listener)
    = Some (ok, m') /\
    heap m' = heap (single listener) /\
    events m' = events (single listener).
Proof.
  assert (Hrun : {x | Set_Sock_Options (P:=posix) obliging 7 (single listener)
                      = Some x})
    by (eexists; vm_compute; reflexivity).
  destruct Hrun as [[ok m'] Hrun].
  destruct (set_sock_options_nonblocking (P:=posix) obliging 7 _ ok m' Hrun)
    as (Hh & He & _).
  exists ok, m'. auto.
Defined.

Lemma accept_call_failure_witness :
  (heap (single listener) !! 100 = Some listener /\
   ret (scripted [] (sys_accept (devreq.socket listener)
                     :: calls (single listener))) = @BAD_SOCKET posix) /\
  exists m',
    Accept_Socket (P:=posix) (scripted []) 100 (single listener)
    = Some (DR_ERROR, m') /\
    events m' = [].
Proof.
  assert (H1 : heap (single listener) !! 100 = Some listener) by reflexivity.
  assert (H2 : ret (scripted [] (sys_accept (devreq.socket listener)
                     :: calls (single listener))) = @BAD_SOCKET posix)
    by reflexivity.
  split; [auto|].
  eexists. split;
    [exact (accept_call_failure (P:=posix) (scripted []) 100 _ _ H1 H2)|].
  reflexivity.
Defined.

Lemma init_quit_pairing_witness :
  0 < 1 /\
  Z.land (snd (Init_Net (P:=posix) 1 0 6)) 1 <> 0 /\
  Z.land (snd (fst (Quit_Net (P:=posix) 1
                      (snd (Init_Net (P:=posix) 1 0 6))))) 1 = 0.
Proof.
  assert (H1 : 0 < 1) by lia.
  split; [exact H1|].
  destruct (init_quit_pairing (P:=posix) 1 0 6 H1) as (_ & Hdone & _).
  destruct (Hdone eq_refl) as (Hset & _ & Hclear & _).
  split; [exact Hset | exact Hclear].
Defined.

Lemma send_completes_witness :
  ((forall h fd buf len fl ip port,
      1 <= len ->
      1 <= ret (chunked 4 (sys_sendto fd buf len fl ip port :: h)) <= len) /\
   heap (single sender) !! 100 = Some sender /\
   devreq.command sender <> RDC_READ /\
   (Z.land (devreq.state sender) (@RSM_CONNECT posix) <> 0 \/
    Z.land (devreq.modes sender) (@RST_UDP posix) <> 0) /\
   0 <= devreq.actual sender < devreq.length sender /\
   devreq.length sender < 2 ^ 32 /\
   devreq.length sender - devreq.actual sender <= Z.of_nat 10) /\
  exists n m' r',
    resend (P:=posix) (chunked 4) 10 100 (single sender)
    = Some (Some n, m') /\
    heap m' !! 100 = Some r' /\
    devreq.actual r' = devreq.length sender.
Proof.
  assert (H0 : forall h fd buf len fl ip port,
      1 <= len ->
      1 <= ret (chunked 4 (sys_sendto fd buf len fl ip port :: h)) <= len)
    by (intros; simpl; lia).
  assert (H1 : heap (single sender) !! 100 = Some sender) by reflexivity.
  assert (H2 : devreq.command sender <> RDC_READ) by (simpl; discriminate).
  assert (H3 : Z.land (devreq.state sender) (@RSM_CONNECT posix) <> 0 \/
               Z.land (devreq.modes sender) (@RST_UDP posix) <> 0)
    by (left; vm_compute; lia).
  assert (H4 : 0 <= devreq.actual sender < devreq.length sender)
    by (simpl; lia).
  assert (H5 : devreq.length sender < 2 ^ 32) by (simpl; lia).
  assert (H6 : devreq.length sender - devreq.actual sender <= Z.of_nat 10)
    by (simpl; lia).
  split; [auto 8|].
  destruct (send_completes (P:=posix) (chunked 4) 10 100 _ _
              H0 H1 H2 H3 H4 H5 H6)
    as (n & m' & r' & Hrun & _ & _ & Hr' & Ha & _).
  exists n, m', r'. auto.
Defined.

Lemma udp_session_succeeds_witness :
  ((forall h t p, ret (obliging (sys_socket t p :: h)) <> @BAD_SOCKET posix) /\
   (forall h fd o v, 0 <= ret (obliging (sys_setsockopt fd o v :: h))) /\
   (forall h fd mode, ret (obliging (sys_ioctl_fionbio fd mode :: h)) = 0) /\
   (forall h fd fl, 0 <= ret (obliging (sys_fcntl_setfl fd fl :: h))) /\
   (forall h fd buf len fl ip port,
      ret (obliging (sys_sendto fd buf len fl ip port :: h)) = len) /\
   heap (single udp_fresh) !! 100 = Some udp_fresh /\
   Z.land (devreq.modes udp_fresh) (@RST_UDP posix) <> 0 /\
   Z.land (devreq.modes udp_fresh) (@RST_LISTEN posix) = 0 /\
   0 <= devreq.actual udp_fresh <= devreq.length udp_fresh /\
   devreq.length udp_fresh - devreq.actual udp_fresh <= @MAX_TRANSFER posix /\
   devreq.length udp_fresh < 2 ^ 32) /\
  exists m' r',
    udp_session (P:=posix) obliging 100 (single udp_fresh)
    = Some ((DR_DONE, DR_DONE, DR_DONE), m') /\
    heap m' !! 100 = Some r' /\
    devreq.actual r' = 10.
Proof.
  assert (H1 : forall h t p,
            ret (obliging (sys_socket t p :: h)) <> @BAD_SOCKET posix)
    by (intros; simpl; lia).
  assert (H2 : forall h fd o v,
            0 <= ret (obliging (sys_setsockopt fd o v :: h)))
    by (intros; simpl; lia).
  assert (H3 : forall h fd mode,
            ret (obliging (sys_ioctl_fionbio fd mode :: h)) = 0)
    by (intros; reflexivity).
  assert (H4 : forall h fd fl,
            0 <= ret (obliging (sys_fcntl_setfl fd fl :: h)))
    by (intros; simpl; lia).
  assert (H5 : forall h fd buf len fl ip port,
            ret (obliging (sys_sendto fd buf len fl ip port :: h)) = len)
    by (intros; reflexivity).
  assert (H6 : heap (single udp_fresh) !! 100 = Some udp_fresh)
    by reflexivity.
  assert (H7 : Z.land (devreq.modes udp_fresh) (@RST_UDP posix) <> 0)
    by (vm_compute; lia).
  assert (H8 : Z.land (devreq.modes udp_fresh) (@RST_LISTEN posix) = 0)
    by reflexivity.
  assert (H9 : 0 <= devreq.actual udp_fresh <= devreq.length udp_fresh)
    by (simpl; lia).
  assert (H10 : devreq.length udp_fresh - devreq.actual udp_fresh
                <= @MAX_TRANSFER posix) by (simpl; lia).
  assert (H11 : devreq.length udp_fresh < 2 ^ 32) by (simpl; lia).
  split; [auto 12|].
  destruct (udp_session_succeeds (P:=posix) obliging 100 _ _
              H1 H2 H3 H4 H5 H6 H7 H8 H9 H10 H11)
    as (m' & r' & Hrun & Hr' & Ha & _).
  exists m', r'. auto.
Defined.
